(** * Numerical differentiation calculator: the engine of [src/app/page.tsx]

    A shallow embedding of the numerical engine of the calculator page:
    the registry of finite-difference methods ([methods]), the two
    expression helpers ([parseFunction], [getAnalyticalDerivative]), the
    orchestrator ([calculateDerivatives]), the convergence sweep
    ([generateErrorData]), the plot ([generatePlotData]) and the method
    checkboxes ([handleMethodToggle]).

    - A JavaScript [number] is an IEEE 754 binary64 value: Rocq's primitive
      [float], whose operations are specified by [FloatAxioms].  The method
      registry is written once over an interface of arithmetic operations
      ([Arith]) and instantiated at [float] (what the page computes) and at
      the real numbers [R] (exact arithmetic).
    - A call that may raise is a [completion]: [Normal v] or [Throw e].
    - The expression library (mathjs) is not part of the repository; it is
      the interface [MathJs].
    - React state is a record; a callback reads the snapshot it closed over
      and emits a list of setter calls ([update]), committed afterwards. *)

From Stdlib Require Import Floats ZArith Bool String List Reals.
Import ListNotations.

Set Implicit Arguments.

#[local] Open Scope string_scope.
#[local] Open Scope list_scope.

(* ================================================================== *)
(** ** JavaScript values and control *)

Module JS.

(** The outcome of evaluating a call: a value, or a raised exception
    carrying its message. *)
Inductive completion (A : Type) : Type :=
| Normal (value : A)
| Throw (message : string).
Arguments Normal {A} value.
Arguments Throw {A} message.

Definition bind {A B} (c : completion A) (k : A -> completion B)
  : completion B :=
  match c with
  | Normal a => k a
  | Throw e => Throw e
  end.

(** [try { body } catch { handler }]. *)
Definition tryCatch {A} (body : completion A) (handler : string -> completion A)
  : completion A :=
  match body with
  | Normal a => Normal a
  | Throw e => handler e
  end.

Definition threw {A} (c : completion A) : bool :=
  match c with
  | Normal _ => false
  | Throw _ => true
  end.

(** The value of a call known to complete normally, as the TypeScript
    signature [(x: number) => number] presents it. *)
Definition valueOr {A} (fallback : A) (c : completion A) : A :=
  match c with
  | Normal a => a
  | Throw _ => fallback
  end.

(** [number]: binary64. *)
Definition number := float.

Definition NaN : number := PrimFloat.nan.

(** [a === b] and [a !== b] on numbers: IEEE equality, so that
    [NaN !== NaN] and [-0 === 0]. *)
Definition strictEq (a b : number) : bool := PrimFloat.eqb a b.
Definition strictNeq (a b : number) : bool := negb (PrimFloat.eqb a b).

(** [Math.abs]. *)
Definition Math_abs (a : number) : number := PrimFloat.abs a.

(** An array index as a number. *)
Definition ofIndex (i : nat) : number :=
  PrimFloat.of_uint63 (Uint63.of_Z (Z.of_nat i)).

End JS.

Import JS.

Declare Scope js_scope.
Delimit Scope js_scope with js.
Notation "x <- c ;; k" := (JS.bind c (fun x => k))
  (at level 61, c at next level, right associativity) : js_scope.

(* ================================================================== *)
(** ** Arithmetic interface of the estimators *)

(** The operations the three estimators use: [+], [-], [*], [/] and the
    literal [2]. *)
Class Arith (num : Type) : Type := {
  plus : num -> num -> num;
  minus : num -> num -> num;
  times : num -> num -> num;
  divide : num -> num -> num;
  two : num
}.

Declare Scope num_scope.
Delimit Scope num_scope with num.
Infix "+" := plus : num_scope.
Infix "-" := minus : num_scope.
Infix "*" := times : num_scope.
Infix "/" := divide : num_scope.

#[export] Instance float_arith : Arith float := {
  plus := PrimFloat.add;
  minus := PrimFloat.sub;
  times := PrimFloat.mul;
  divide := PrimFloat.div;
  two := 2%float
}.

#[export] Instance real_arith : Arith R := {
  plus := Rplus;
  minus := Rminus;
  times := Rmult;
  divide := Rdiv;
  two := 2%R
}.

(* ================================================================== *)
(** ** The method registry (page.tsx, lines 20-55) *)

Record DifferentiationMethod (num : Type) : Type := {
  name : string;
  formula : string;
  order : string;
  color : string;
  calculate : (num -> num) -> num -> num -> num
}.

Section Methods.
Context {num : Type} `{Arith num}.
#[local] Open Scope num_scope.

Definition methods : list (DifferentiationMethod num) :=
  [ {| name := "Forward Difference";
       formula := "(f(x+h) - f(x)) / h";
       order := "O(h)";
       color := "#3b82f6";
       calculate := fun f x h => (f (x + h) - f x) / h |};
    {| name := "Backward Difference";
       formula := "(f(x) - f(x-h)) / h";
       order := "O(h)";
       color := "#ef4444";
       calculate := fun f x h => (f x - f (x - h)) / h |};
    {| name := "Central Difference";
       formula := "(f(x+h) - f(x-h)) / (2h)";
       order := "O(h²)";
       color := "#10b981";
       calculate := fun f x h => (f (x + h) - f (x - h)) / (two * h) |} ].

(** [methods.find((m) => m.name === methodName)]; [None] is
    [undefined]. *)
Definition findMethod (methodName : string)
  : option (DifferentiationMethod num) :=
  find (fun m => String.eqb (name m) methodName) methods.

(** The estimate and the declared order of the method registered under
    a name. *)
Definition estimate (methodName : string) (f : num -> num) (x h : num)
  : option num :=
  option_map (fun m => calculate m f x h) (findMethod methodName).

Definition declaredOrder (methodName : string) : option string :=
  option_map (@order num) (findMethod methodName).

End Methods.


(** Whether a name is one of the names of the registry. *)
Definition registered (methodName : string) : bool :=
  existsb (String.eqb methodName) (map (@name number) methods).

(* ================================================================== *)
(** ** The expression library (mathjs) *)

(** What the page uses of mathjs: [math.parse(input)],
    [math.derivative(expr, "x")], [expr.compile()] and
    [compiled.evaluate({ x })].  Each call either returns or raises; the
    library itself is outside the repository, so the page is modelled over
    any implementation of this interface.  Evaluation is taken at the type
    the page declares for it, [(x: number) => number]. *)
Class MathJs : Type := {
  node : Type;
  code : Type;
  parse : string -> completion node;
  derivative : node -> completion node;
  compile : node -> completion code;
  evaluate : code -> number -> completion number
}.

(* ================================================================== *)
(** ** Component state and setter calls *)

(** One row of [results] (page.tsx, lines 137-146).  [None] is [null]. *)
Record Result : Type := {
  method : string;
  numerical : number;
  analytical : option number;
  absoluteError : option number;
  relativeError : option number;
  resultFormula : string;
  resultOrder : string;
  resultColor : string
}.

(** One trace of [errorData] (page.tsx, lines 270-279): the step sizes
    on [x], the absolute errors on [y]. *)
Record Trace : Type := {
  trace_x : list number;
  trace_y : list number;
  trace_name : string;
  trace_color : string
}.

(** The pieces of component state the engine reads and writes
    (page.tsx, lines 58-69). *)
Record State : Type := {
  functionInput : string;
  evaluationPoint : number;
  stepSize : number;
  selectedMethods : list string;
  results : list Result;
  errorData : list Trace;
  functionError : string
}.

(** A call of a state setter. *)
Inductive update : Type :=
| SetFunctionError (message : string)
| SetResults (newResults : list Result)
| SetErrorData (traces : list Trace).

Definition applyUpdate (st : State) (u : update) : State :=
  match u with
  | SetFunctionError message =>
      {| functionInput := functionInput st;
         evaluationPoint := evaluationPoint st;
         stepSize := stepSize st;
         selectedMethods := selectedMethods st;
         results := results st;
         errorData := errorData st;
         functionError := message |}
  | SetResults newResults =>
      {| functionInput := functionInput st;
         evaluationPoint := evaluationPoint st;
         stepSize := stepSize st;
         selectedMethods := selectedMethods st;
         results := newResults;
         errorData := errorData st;
         functionError := functionError st |}
  | SetErrorData traces =>
      {| functionInput := functionInput st;
         evaluationPoint := evaluationPoint st;
         stepSize := stepSize st;
         selectedMethods := selectedMethods st;
         results := results st;
         errorData := traces;
         functionError := functionError st |}
  end.

(** The state after the setter calls of a callback are applied, in the
    order they were made. *)
Definition commit (st : State) (updates : list update) : State :=
  fold_left applyUpdate updates st.

(** A callback body: how it completes, and the setter calls it made. *)
Definition Eff (A : Type) : Type := (completion A * list update)%type.

Definition ret {A} (a : A) : Eff A := (Normal a, []).

Definition lift {A} (c : completion A) : Eff A := (c, []).

Definition call (u : update) : Eff unit := (Normal tt, [u]).

Definition bindE {A B} (m : Eff A) (k : A -> Eff B) : Eff B :=
  match fst m with
  | Normal a => (fst (k a), snd m ++ snd (k a))
  | Throw e => (Throw e, snd m)
  end.

(** [try { body } catch { handler }] around a callback body. *)
Definition tryCatchE {A} (body : Eff A) (handler : string -> Eff A) : Eff A :=
  match fst body with
  | Normal a => body
  | Throw e => (fst (handler e), snd body ++ snd (handler e))
  end.

Declare Scope eff_scope.
Delimit Scope eff_scope with eff.
Notation "x <- m ;; k" := (bindE m (fun x => k))
  (at level 61, m at next level, right associativity) : eff_scope.
Notation "m ;; k" := (bindE m (fun _ => k))
  (at level 61, right associativity) : eff_scope.

Definition setFunctionError (message : string) : Eff unit :=
  call (SetFunctionError message).
Definition setResults (newResults : list Result) : Eff unit :=
  call (SetResults newResults).
Definition setErrorData (traces : list Trace) : Eff unit :=
  call (SetErrorData traces).

(** The setter calls of a callback, and the state they leave. *)
Definition updatesOf {A} (m : Eff A) : list update := snd m.
Definition completionOf {A} (m : Eff A) : completion A := fst m.
Definition run {A} (m : Eff A) (st : State) : State := commit st (snd m).

(* ================================================================== *)
(** ** The page callbacks (page.tsx, lines 71-289) *)

Section Page.
Context {mathjs : MathJs}.
(** [Math.pow], which the language leaves implementation-approximated. *)
Variable Math_pow : number -> number -> number.

#[local] Open Scope float_scope.

(** The closure both helpers return (lines 76-82 and 95-101):
    [(x) => { try { return compiled.evaluate({ x }); }
              catch { return Number.NaN; } }]. *)
Definition guardedEvaluate (compiled : code) (x : number) : completion number :=
  tryCatch (evaluate compiled x) (fun _ => Normal NaN).

(** The same closure at its declared type [(x: number) => number]. *)
Definition compiledFunction (compiled : code) : number -> number :=
  fun x => valueOr NaN (guardedEvaluate compiled x).

(** The code the [try] body of each helper reaches, or what it raised:
    of the expression itself (lines 74-75) and of its symbolic derivative
    (lines 92-94). *)
Definition compileExpression (input : string) : completion code :=
  (expr <- parse input ;; compile expr)%js.

Definition compileDerivative (input : string) : completion code :=
  (expr <- parse input ;;
   derivative <- derivative expr ;;
   compile derivative)%js.

(** Lines 72-87.  [None] is [null]. *)
Definition parseFunction (input : string) : Eff (option (number -> number)) :=
  tryCatchE
    (lift (expr <- parse input ;;
           compiled <- compile expr ;;
           Normal (Some (compiledFunction compiled)))%js)
    (fun _ => (setFunctionError "Invalid function syntax" ;; ret None)%eff).

(** Lines 90-105. *)
Definition getAnalyticalDerivative (input : string)
  : Eff (option (number -> number)) :=
  tryCatchE
    (lift (expr <- parse input ;;
           derivative <- derivative expr ;;
           compiled <- compile derivative ;;
           Normal (Some (compiledFunction compiled)))%js)
    (fun _ => ret None).

(** What [getAnalyticalDerivative] hands to its callers. *)
Definition analyticalOf (input : string) : option (number -> number) :=
  match compileDerivative input with
  | Normal compiled => Some (compiledFunction compiled)
  | Throw _ => None
  end.

(** The body of the loop of [calculateDerivatives] for a method that was
    found (lines 123-146). *)
Definition resultFor (func : number -> number)
    (analyticalDerivative : option (number -> number)) (x h : number)
    (methodName : string) (method : DifferentiationMethod number) : Result :=
  let numericalResult := calculate method func x h in
  let analyticalResult :=
    match analyticalDerivative with
    | Some analyticalDerivative => Some (analyticalDerivative x)
    | None => None
    end in
  let error :=
    match analyticalResult with
    | Some analyticalResult =>
        Some (Math_abs (numericalResult - analyticalResult))
    | None => None
    end in
  let relativeError :=
    match analyticalResult with
    | Some analyticalResult =>
        if strictNeq analyticalResult 0
        then Some (Math_abs ((numericalResult - analyticalResult)
                             / analyticalResult) * 100)
        else None
    | None => None
    end in
  {| method := methodName;
     numerical := numericalResult;
     analytical := analyticalResult;
     absoluteError := error;
     relativeError := relativeError;
     resultFormula := formula method;
     resultOrder := order method;
     resultColor := color method |}.

(** [selectedMethods.forEach(...)] pushing onto [newResults]
    (lines 117-147); a name that [find] does not know returns early. *)
Definition collectResults (func : number -> number)
    (analyticalDerivative : option (number -> number)) (x h : number)
    (selected : list string) : list Result :=
  fold_left
    (fun newResults methodName =>
       match findMethod methodName with
       | None => newResults
       | Some method =>
           newResults
             ++ [resultFor func analyticalDerivative x h methodName method]
       end)
    selected [].

(** Lines 108-149. *)
Definition calculateDerivatives (st : State) : Eff unit :=
  (func <- parseFunction (functionInput st) ;;
   analyticalDerivative <- getAnalyticalDerivative (functionInput st) ;;
   match func with
   | None => ret tt
   | Some func =>
       setFunctionError EmptyString ;;
       let h := stepSize st in
       let x := evaluationPoint st in
       setResults (collectResults func analyticalDerivative x h
                     (selectedMethods st))
   end)%eff.

(** [Array.from({ length: 20 }, (_, i) => Math.pow(10, -4 + i * 0.2))]
    (lines 255-257).  The literal [0.2] denotes the binary64 value
    [0x1.999999999999ap-3]. *)
Definition stepSizes : list number :=
  map (fun i => Math_pow 10 (-4 + ofIndex i * 0x1.999999999999ap-3))
      (seq 0 20).

(** The trace pushed for a method that was found (lines 264-279). *)
Definition traceFor (func analyticalDerivative : number -> number)
    (evaluationPoint : number) (methodName : string)
    (method : DifferentiationMethod number) : Trace :=
  let errors :=
    map (fun h =>
           let numerical := calculate method func evaluationPoint h in
           let analytical := analyticalDerivative evaluationPoint in
           Math_abs (numerical - analytical))
        stepSizes in
  {| trace_x := stepSizes;
     trace_y := errors;
     trace_name := methodName ++ " Error";
     trace_color := color method |}.

(** [selectedMethods.forEach(...)] pushing onto [traces]
    (lines 258-280). *)
Definition collectTraces (func analyticalDerivative : number -> number)
    (evaluationPoint : number) (selected : list string) : list Trace :=
  fold_left
    (fun traces methodName =>
       match findMethod methodName with
       | None => traces
       | Some method =>
           traces
             ++ [traceFor func analyticalDerivative evaluationPoint
                          methodName method]
       end)
    selected [].

(** Lines 249-282. *)
Definition generateErrorData (st : State) : Eff unit :=
  (func <- parseFunction (functionInput st) ;;
   analyticalDerivative <- getAnalyticalDerivative (functionInput st) ;;
   match func, analyticalDerivative with
   | Some func, Some analyticalDerivative =>
       setErrorData (collectTraces func analyticalDerivative
                       (evaluationPoint st) (selectedMethods st))
   | _, _ => ret tt
   end)%eff.

End Page.

(** The closure of lines 76-82 and 95-101 again, over whatever
    [compiled.evaluate({ x })] returns: the library's result type is
    [any], and [ofNumber] is how a number sits among those values.
    [guardedEvaluate] is this closure where the values are the
    numbers. *)
Definition guardedCall {V : Type} (ofNumber : number -> V)
    (call : completion V) : completion V :=
  tryCatch call (fun _ => Normal (ofNumber NaN)).

(* ================================================================== *)
(** ** The plot and the method checkboxes (page.tsx, lines 160-246 and
    304-310) *)

(** [CheckedState] of the checkbox library: [boolean | "indeterminate"]. *)
Inductive CheckedState : Type :=
| Checked (value : bool)
| Indeterminate.

(** Truthiness of a [CheckedState] in [if (...)]: the string
    ["indeterminate"] is truthy. *)
Definition truthy (c : CheckedState) : bool :=
  match c with
  | Checked value => value
  | Indeterminate => true
  end.

(** [line: { color, width, dash }]; [None] is an absent key. *)
Record LineStyle : Type := {
  line_color : string;
  line_width : number;
  line_dash : option string
}.

(** [marker: { color, size, symbol }]. *)
Record MarkerStyle : Type := {
  marker_color : string;
  marker_size : number;
  marker_symbol : option string
}.

(** One trace of [plotData]. *)
Record PlotTrace : Type := {
  plot_x : list number;
  plot_y : list number;
  plot_type : string;
  plot_mode : string;
  plot_name : string;
  plot_line : option LineStyle;
  plot_marker : option MarkerStyle
}.

(** The setter calls [generatePlotData] can make: those of
    [parseFunction], and [setPlotData]. *)
Inductive plotUpdate : Type :=
| Engine (u : update)
| SetPlotData (traces : list PlotTrace).

Section Plot.
Context {mathjs : MathJs}.

#[local] Open Scope float_scope.

(** [Array.from({ length: 200 }, (_, i) => (i - 100) * 0.1 +
    evaluationPoint)] (lines 164-167).  The literal [0.1] denotes the
    binary64 value [0x1.999999999999ap-4]. *)
Definition xRange (evaluationPoint : number) : list number :=
  map (fun i => (ofIndex i - 100) * 0x1.999999999999ap-4 + evaluationPoint)
      (seq 0 200).

(** The first trace (lines 170-179). *)
Definition curveTrace (func : number -> number) (functionInput : string)
    (evaluationPoint : number) : PlotTrace :=
  let xRange := xRange evaluationPoint in
  let yRange := map (fun x => func x) xRange in
  {| plot_x := xRange;
     plot_y := yRange;
     plot_type := "scatter";
     plot_mode := "lines";
     plot_name := "f(x) = " ++ functionInput;
     plot_line := Some {| line_color := "#1f2937";
                          line_width := 3;
                          line_dash := None |};
     plot_marker := None |}.

(** The evaluation point (lines 182-189). *)
Definition pointTrace (func : number -> number) (evaluationPoint : number)
  : PlotTrace :=
  {| plot_x := [evaluationPoint];
     plot_y := [func evaluationPoint];
     plot_type := "scatter";
     plot_mode := "markers";
     plot_name := "Evaluation Point";
     plot_line := None;
     plot_marker := Some {| marker_color := "#dc2626";
                            marker_size := 10;
                            marker_symbol := None |} |}.

(** The tangent pushed for one row of [results] (lines 194-208). *)
Definition tangentTrace (func : number -> number) (evaluationPoint : number)
    (result : Result) : PlotTrace :=
  let slope := numerical result in
  let y0 := func evaluationPoint in
  let tangentX := [evaluationPoint - 1; evaluationPoint + 1] in
  let tangentY :=
    map (fun x => y0 + slope * (x - evaluationPoint)) tangentX in
  {| plot_x := tangentX;
     plot_y := tangentY;
     plot_type := "scatter";
     plot_mode := "lines";
     plot_name := method result ++ " Tangent";
     plot_line := Some {| line_color := resultColor result;
                          line_width := 2;
                          line_dash := Some "dash" |};
     plot_marker := None |}.

(** Lines 218-225. *)
Definition samplingPointsOf (methodName : string) (evaluationPoint h : number)
  : list number :=
  if String.eqb methodName "Forward Difference"
  then [evaluationPoint; evaluationPoint + h]
  else if String.eqb methodName "Backward Difference"
  then [evaluationPoint - h; evaluationPoint]
  else if String.eqb methodName "Central Difference"
  then [evaluationPoint - h; evaluationPoint + h]
  else [].

(** The sampling trace pushed for a method that was found
    (lines 218-234). *)
Definition samplingTrace (func : number -> number) (evaluationPoint h : number)
    (methodName : string) (method : DifferentiationMethod number)
  : PlotTrace :=
  let samplingPoints := samplingPointsOf methodName evaluationPoint h in
  {| plot_x := samplingPoints;
     plot_y := map (fun x => func x) samplingPoints;
     plot_type := "scatter";
     plot_mode := "markers";
     plot_name := methodName ++ " Points";
     plot_line := None;
     plot_marker := Some {| marker_color := color method;
                            marker_size := 8;
                            marker_symbol := Some "square" |} |}.

(** The array [traces] as it stands at [setPlotData(traces)]
    (lines 170-235). *)
Definition plotTraces (func : number -> number) (showTangentLines : CheckedState)
    (st : State) : list PlotTrace :=
  let traces := [curveTrace func (functionInput st) (evaluationPoint st)] in
  let traces := traces ++ [pointTrace func (evaluationPoint st)] in
  let traces :=
    if truthy showTangentLines
    then fold_left
           (fun traces result =>
              traces ++ [tangentTrace func (evaluationPoint st) result])
           (results st) traces
    else traces in
  let h := stepSize st in
  fold_left
    (fun traces methodName =>
       match findMethod methodName with
       | None => traces
       | Some method =>
           traces
             ++ [samplingTrace func (evaluationPoint st) h methodName method]
       end)
    (selectedMethods st) traces.

(** Lines 160-237: how the callback completes and the setter calls it
    makes, on the snapshot [st] and [showTangentLines]. *)
Definition generatePlotData (showTangentLines : CheckedState) (st : State)
  : completion unit * list plotUpdate :=
  let parsed := parseFunction (functionInput st) in
  match completionOf parsed with
  | Normal None => (Normal tt, map Engine (updatesOf parsed))
  | Normal (Some func) =>
      (Normal tt,
       map Engine (updatesOf parsed)
         ++ [SetPlotData (plotTraces func showTangentLines st)])
  | Throw e => (Throw e, map Engine (updatesOf parsed))
  end.

End Plot.

(** [selectedMethods.includes(methodName)], the checkbox's [checked]
    (line 415). *)
Definition includes (selected : list string) (methodName : string) : bool :=
  existsb (String.eqb methodName) selected.

(** The updater [handleMethodToggle] passes to [setSelectedMethods]
    (lines 304-310). *)
Definition handleMethodToggle (methodName : string) (checked : bool)
    (prev : list string) : list string :=
  if checked
  then prev ++ [methodName]
  else filter (fun m => negb (String.eqb m methodName)) prev.

(** Both engine effects of one render: each reads the same snapshot, and
    their setter calls are applied together (lines 292-302). *)
Definition commitBoth (st : State) (first second : Eff unit) : State :=
  commit st (updatesOf first ++ updatesOf second).

(* ================================================================== *)
(** ** A small implementation of the library interface

    Used to run the callbacks on concrete inputs.  It knows a handful of
    expressions; like mathjs it parses a free symbol other than [x] and
    raises only when the symbol is evaluated, and it refuses to
    differentiate a function it has no rule for. *)

Module Sample.

#[local] Open Scope float_scope.

Inductive expr : Type :=
| Const (c : number)
| VarX
| Symbol (s : string)
| Add (a b : expr)
| Sub (a b : expr)
| Mul (a b : expr)
| Div (a b : expr)
| Sign (a : expr).

Fixpoint eval (e : expr) (x : number) : completion number :=
  match e with
  | Const c => Normal c
  | VarX => Normal x
  | Symbol s => Throw ("Undefined symbol " ++ s)
  | Add a b => (u <- eval a x ;; v <- eval b x ;; Normal (u + v))%js
  | Sub a b => (u <- eval a x ;; v <- eval b x ;; Normal (u - v))%js
  | Mul a b => (u <- eval a x ;; v <- eval b x ;; Normal (u * v))%js
  | Div a b => (u <- eval a x ;; v <- eval b x ;; Normal (u / v))%js
  | Sign a =>
      (u <- eval a x ;;
       Normal (if u <? 0 then -1 else if 0 <? u then 1 else u))%js
  end.

Fixpoint diff (e : expr) : completion expr :=
  match e with
  | Const _ => Normal (Const 0)
  | VarX => Normal (Const 1)
  | Symbol _ => Normal (Const 0)
  | Add a b => (a' <- diff a ;; b' <- diff b ;; Normal (Add a' b'))%js
  | Sub a b => (a' <- diff a ;; b' <- diff b ;; Normal (Sub a' b'))%js
  | Mul a b =>
      (a' <- diff a ;; b' <- diff b ;;
       Normal (Add (Mul a' b) (Mul a b')))%js
  | Div a b =>
      (a' <- diff a ;; b' <- diff b ;;
       Normal (Div (Sub (Mul a' b) (Mul a b')) (Mul b b)))%js
  | Sign _ => Throw "Function sign is not supported by derivative"
  end.

Definition known : list (string * expr) :=
  [ ("x", VarX);
    ("x*x", Mul VarX VarX);
    ("x^2 + 2*x + 1",
     Add (Add (Mul VarX VarX) (Mul (Const 2) VarX)) (Const 1));
    ("1/x", Div (Const 1) VarX);
    ("x/x", Div VarX VarX);
    ("x + y", Add VarX (Symbol "y"));
    ("sign(x)", Sign VarX) ].

Definition parseKnown (input : string) : completion expr :=
  match find (fun entry => String.eqb (fst entry) input) known with
  | Some entry => Normal (snd entry)
  | None => Throw "SyntaxError"
  end.

#[export] Instance lib : MathJs := {
  node := expr;
  code := expr;
  parse := parseKnown;
  derivative := diff;
  compile := fun e => Normal e;
  evaluate := eval
}.

(** [e^y] by a degree-12 Taylor polynomial at [y / 1024], squared ten
    times. *)
Definition expApprox (y : number) : number :=
  let z := y / 1024 in
  let t :=
    fold_right (fun k acc => 1 + z / ofIndex k * acc) 1
               (seq 1 12) in
  fold_right (fun _ acc => acc * acc) t (seq 0 10).

(** A stand-in for [Math.pow], for base 10 (the one base the page
    passes). *)
Definition pow (base exponent : number) : number :=
  if base =? 10
  then expApprox (exponent * 0x1.26bb1bbb55516p+1)
  else NaN.

Definition initial : State :=
  {| functionInput := "x^2 + 2*x + 1";
     evaluationPoint := 1;
     stepSize := 0x1.999999999999ap-4;
     selectedMethods := ["Central Difference"];
     results := [];
     errorData := [];
     functionError := EmptyString |}.

Definition withInput (input : string) (st : State) : State :=
  {| functionInput := input;
     evaluationPoint := evaluationPoint st;
     stepSize := stepSize st;
     selectedMethods := selectedMethods st;
     results := results st;
     errorData := errorData st;
     functionError := functionError st |}.

Definition withPoint (x : number) (st : State) : State :=
  {| functionInput := functionInput st;
     evaluationPoint := x;
     stepSize := stepSize st;
     selectedMethods := selectedMethods st;
     results := results st;
     errorData := errorData st;
     functionError := functionError st |}.

Definition withSelection (selected : list string) (st : State) : State :=
  {| functionInput := functionInput st;
     evaluationPoint := evaluationPoint st;
     stepSize := stepSize st;
     selectedMethods := selected;
     results := results st;
     errorData := errorData st;
     functionError := functionError st |}.

(** The state a first run leaves, with the input then edited into
    something that does not parse. *)
Definition stale : State :=
  withInput "x^^2" (run (calculateDerivatives initial) initial).

(** [x*x] at 0, where the derivative is 0; one selected name is not
    registered. *)
Definition flat : State :=
  withSelection ["Forward Difference"; "Simpson"; "Central Difference"]
    (withPoint 0 (withInput "x*x" initial)).

(** [x/x] at 0, where the derivative [(1*x - x*1) / (x*x)] is 0/0. *)
Definition singular : State :=
  withSelection ["Forward Difference"; "Central Difference"]
    (withPoint 0 (withInput "x/x" initial)).

(** [sign(x)], which evaluates but has no derivative rule. *)
Definition underived : State :=
  withSelection ["Backward Difference"; "Central Difference"]
    (withInput "sign(x)" initial).

End Sample.


(* ================================================================== *)
(** * Properties *)

(** ** Binary64 facts the page relies on *)

Section FloatFacts.
#[local] Open Scope float_scope.

Lemma sub_nan_r (x : float) : x - nan = nan.
Proof.
  apply Prim2SF_inj. rewrite sub_spec.
  change (Prim2SF nan) with S754_nan.
  unfold SF64sub, SFsub. now destruct (Prim2SF x).
Qed.

Lemma div_nan_l (y : float) : nan / y = nan.
Proof.
  apply Prim2SF_inj. rewrite div_spec.
  change (Prim2SF nan) with S754_nan. reflexivity.
Qed.

Lemma mul_nan_l (y : float) : nan * y = nan.
Proof.
  apply Prim2SF_inj. rewrite mul_spec.
  change (Prim2SF nan) with S754_nan. reflexivity.
Qed.

(** Rounding to nearest-even does not look at the sign. *)
Lemma SFabs_binary_round_aux (s : bool) (m e : Z) (l : location) :
  SFabs (binary_round_aux prec emax s m e l)
  = binary_round_aux prec emax false m e l.
Proof.
  unfold binary_round_aux.
  destruct (shr_fexp prec emax m e l) as [mrs' e'].
  destruct (shr_fexp prec emax _ e' loc_Exact) as [mrs'' e''].
  destruct (shr_m mrs''); try reflexivity.
  now destruct (Z.leb _ _).
Qed.

(** [|x / y| = |x| / |y|] holds exactly in binary64, special values
    included. *)
Lemma abs_div (x y : float) : abs (x / y) = abs x / abs y.
Proof.
  apply Prim2SF_inj. rewrite abs_spec, !div_spec, !abs_spec.
  unfold SF64div.
  destruct (Prim2SF x) as [sx|sx| |sx mx ex];
    destruct (Prim2SF y) as [sy|sy| |sy my ey]; try reflexivity.
  simpl.
  destruct (SFdiv_core_binary prec emax (Z.pos mx) ex (Z.pos my) ey)
    as [[mz ez] lz].
  apply SFabs_binary_round_aux.
Qed.

End FloatFacts.

(** ** Lists built by [forEach] and [push] *)

Section ForEachPush.
Context {A M B : Type} (lookup : A -> option M) (make : A -> M -> B).

(** The loop [l.forEach(a => { const m = lookup(a); if (!m) return;
    acc.push(make(a, m)); })]. *)
Lemma forEach_push_acc (l : list A) (acc : list B) :
  fold_left
    (fun acc a =>
       match lookup a with
       | None => acc
       | Some m => acc ++ [make a m]
       end)
    l acc
  = acc ++ flat_map (fun a => match lookup a with
                              | None => []
                              | Some m => [make a m]
                              end) l.
Proof.
  revert acc. induction l as [|a l IH]; intros acc; simpl.
  - now rewrite app_nil_r.
  - rewrite IH. destruct (lookup a); simpl.
    + now rewrite <- app_assoc.
    + reflexivity.
Qed.

End ForEachPush.

Lemma combine_map_r {A B} (g : A -> B) (l : list A) :
  combine l (map g l) = map (fun a => (a, g a)) l.
Proof. induction l as [|a l IH]; simpl; [reflexivity | now rewrite IH]. Qed.

(** ** The method registry *)

Lemma findMethod_registered (methodName : string) :
  registered methodName
  = match findMethod (num := number) methodName with
    | Some _ => true
    | None => false
    end.
Proof.
  cbv [registered findMethod methods map existsb find name orb].
  rewrite !(String.eqb_sym methodName).
  destruct (String.eqb "Forward Difference" methodName); [reflexivity|].
  destruct (String.eqb "Backward Difference" methodName); [reflexivity|].
  now destruct (String.eqb "Central Difference" methodName).
Qed.

Section MethodTheorems.
Context {num : Type} `{Arith num}.
#[local] Open Scope num_scope.

(** C1. For every function f, point x and step h, over any arithmetic
    (binary64 included), the method registered as Forward Difference
    returns (f(x+h) - f(x)) / h, Backward Difference returns
    (f(x) - f(x-h)) / h and Central Difference returns
    (f(x+h) - f(x-h)) / (2h); their declared orders are O(h), O(h) and
    O(h²), and these three are the whole registry. *)
Theorem methods_compute_formulas (f : num -> num) (x h : num) :
  map (@name num) methods
    = ["Forward Difference"; "Backward Difference"; "Central Difference"]
  /\ estimate "Forward Difference" f x h = Some ((f (x + h) - f x) / h)
  /\ estimate "Backward Difference" f x h = Some ((f x - f (x - h)) / h)
  /\ estimate "Central Difference" f x h
       = Some ((f (x + h) - f (x - h)) / (two * h))
  /\ declaredOrder (num := num) "Forward Difference" = Some "O(h)"
  /\ declaredOrder (num := num) "Backward Difference" = Some "O(h)"
  /\ declaredOrder (num := num) "Central Difference" = Some "O(h²)".
Proof. repeat split. Qed.

End MethodTheorems.

(** C9. Over exact real arithmetic, for every function f, point x and
    step h, the Central Difference estimate is the arithmetic mean of the
    Forward Difference and Backward Difference estimates. *)
Theorem central_is_mean_of_forward_backward (f : R -> R) (x h : R) :
  exists fwd bwd : R,
    estimate "Forward Difference" f x h = Some fwd
    /\ estimate "Backward Difference" f x h = Some bwd
    /\ estimate "Central Difference" f x h = Some ((fwd + bwd) / 2)%R.
Proof.
  eexists; eexists; split; [reflexivity | split; [reflexivity |]].
  cbn. f_equal. unfold Rdiv. rewrite Rinv_mult. ring.
Qed.

(** ** The helpers *)

Section PageTheorems.
Context {mathjs : MathJs}.
Variable Math_pow : number -> number -> number.

#[local] Open Scope float_scope.

Lemma guardedEvaluate_normal (compiled : code) (x : number) :
  guardedEvaluate compiled x = Normal (compiledFunction compiled x).
Proof.
  unfold compiledFunction, guardedEvaluate.
  now destruct (evaluate compiled x).
Qed.

Lemma parseFunction_compiled (input : string) (compiled : code) :
  compileExpression input = Normal compiled ->
  parseFunction input = (Normal (Some (compiledFunction compiled)), []).
Proof.
  unfold compileExpression, parseFunction. intros Hc.
  destruct (parse input) as [expr|e]; simpl in *; [|discriminate].
  now rewrite Hc.
Qed.

Lemma parseFunction_failed (input e : string) :
  compileExpression input = Throw e ->
  parseFunction input
  = (Normal None, [SetFunctionError "Invalid function syntax"]).
Proof.
  unfold compileExpression, parseFunction. intros Hc.
  destruct (parse input) as [expr|e']; simpl in *; [|reflexivity].
  now rewrite Hc.
Qed.

(** [getAnalyticalDerivative] makes no setter call and never raises. *)
Lemma getAnalyticalDerivative_eq (input : string) :
  getAnalyticalDerivative input = (Normal (analyticalOf input), []).
Proof.
  unfold getAnalyticalDerivative, analyticalOf, compileDerivative.
  destruct (parse input) as [expr|e]; simpl; [|reflexivity].
  destruct (derivative expr) as [d|e]; simpl; [|reflexivity].
  now destruct (compile d).
Qed.

Lemma calculateDerivatives_compiled (st : State) (compiled : code) :
  compileExpression (functionInput st) = Normal compiled ->
  calculateDerivatives st
  = (Normal tt,
     [SetFunctionError EmptyString;
      SetResults
        (collectResults (compiledFunction compiled)
           (analyticalOf (functionInput st))
           (evaluationPoint st) (stepSize st) (selectedMethods st))]).
Proof.
  intros Hc. unfold calculateDerivatives.
  rewrite (parseFunction_compiled _ Hc), getAnalyticalDerivative_eq.
  reflexivity.
Qed.

Lemma calculateDerivatives_failed (st : State) (e : string) :
  compileExpression (functionInput st) = Throw e ->
  calculateDerivatives st
  = (Normal tt, [SetFunctionError "Invalid function syntax"]).
Proof.
  intros Hc. unfold calculateDerivatives.
  rewrite (parseFunction_failed _ Hc), getAnalyticalDerivative_eq.
  reflexivity.
Qed.

Lemma collectResults_flat_map (func : number -> number)
    (analyticalDerivative : option (number -> number)) (x h : number)
    (selected : list string) :
  collectResults func analyticalDerivative x h selected
  = flat_map
      (fun methodName =>
         match findMethod methodName with
         | None => []
         | Some method =>
             [resultFor func analyticalDerivative x h methodName method]
         end)
      selected.
Proof.
  unfold collectResults. now rewrite forEach_push_acc.
Qed.

(** Every row is the loop body run on a registered method. *)
Lemma collectResults_rows (func : number -> number)
    (analyticalDerivative : option (number -> number)) (x h : number)
    (selected : list string) :
  Forall
    (fun r => exists methodName method,
         findMethod methodName = Some method
         /\ r = resultFor func analyticalDerivative x h methodName method)
    (collectResults func analyticalDerivative x h selected).
Proof.
  rewrite collectResults_flat_map. apply Forall_flat_map.
  apply Forall_forall. intros methodName _.
  destruct (findMethod methodName) as [method|] eqn:Hfind;
    constructor; [eauto | constructor].
Qed.

Lemma collectResults_methods (func : number -> number)
    (analyticalDerivative : option (number -> number)) (x h : number)
    (selected : list string) :
  map (fun r => (method r, Some (numerical r)))
      (collectResults func analyticalDerivative x h selected)
  = map (fun methodName => (methodName, estimate methodName func x h))
        (filter registered selected).
Proof.
  rewrite collectResults_flat_map.
  induction selected as [|methodName selected IH]; simpl; [reflexivity|].
  rewrite map_app, IH, findMethod_registered. unfold estimate.
  destruct (findMethod methodName) eqn:Hfind; simpl;
    [now rewrite Hfind | reflexivity].
Qed.

Lemma collectResults_names (func : number -> number)
    (analyticalDerivative : option (number -> number)) (x h : number)
    (selected : list string) :
  map method (collectResults func analyticalDerivative x h selected)
  = filter registered selected.
Proof.
  pose proof (collectResults_methods func analyticalDerivative x h selected)
    as Hrows.
  apply (f_equal (map fst)) in Hrows.
  rewrite !map_map in Hrows. simpl in Hrows.
  now rewrite map_id in Hrows.
Qed.

(** ** The orchestrator *)

(** Opens a statement about every row of a successful run: rewrites the
    run to its two setter calls, gives the list of rows, leaves the
    goals in between to [tac], and reduces the row-wise goal to one
    row [resultFor ... methodName m]. *)
Ltac rows_of_run Hcompiled tac :=
  rewrite (calculateDerivatives_compiled _ Hcompiled);
  eexists; split; [reflexivity | split; [tac|]];
  (eapply Forall_impl; [|apply collectResults_rows]);
  intros ? (? & ? & _ & ->).

(** C6. When the expression compiles, [calculateDerivatives] completes
    normally and sets [results] to one row per selected name that is
    registered, in the order of the selection, each row carrying the
    estimate of the method of that name; a selected name that is not
    registered contributes nothing. *)
Theorem one_result_per_registered_method (st : State) (compiled : code)
    (Hcompiled : compileExpression (functionInput st) = Normal compiled) :
  exists rs,
    calculateDerivatives st
    = (Normal tt, [SetFunctionError EmptyString; SetResults rs])
    /\ results (run (calculateDerivatives st) st) = rs
    /\ map method rs = filter registered (selectedMethods st)
    /\ map (fun r => (method r, Some (numerical r))) rs
       = map (fun methodName =>
                (methodName,
                 estimate methodName (compiledFunction compiled)
                          (evaluationPoint st) (stepSize st)))
             (filter registered (selectedMethods st)).
Proof.
  rewrite (calculateDerivatives_compiled _ Hcompiled).
  eexists; split; [reflexivity | split; [reflexivity | split]].
  - apply collectResults_names.
  - apply collectResults_methods.
Qed.

(** C2. When the expression and its symbolic derivative both compile,
    every reported row carries the analytical value [a] of the derivative
    at the evaluation point, and its relative error is
    |numerical - a| / |a| * 100 when [a !== 0] and is [null] (neither 0
    nor an infinity) when [a] is zero. *)
Theorem relative_error_reported (st : State) (compiled compiledD : code)
    (Hcompiled : compileExpression (functionInput st) = Normal compiled)
    (Hderived : compileDerivative (functionInput st) = Normal compiledD) :
  let a := compiledFunction compiledD (evaluationPoint st) in
  exists rs,
    calculateDerivatives st
    = (Normal tt, [SetFunctionError EmptyString; SetResults rs])
    /\ map method rs = filter registered (selectedMethods st)
    /\ Forall
         (fun r =>
            analytical r = Some a
            /\ relativeError r
               = if strictEq a 0
                 then None
                 else Some (Math_abs (numerical r - a) / Math_abs a * 100))
         rs.
Proof.
  intros a.
  rows_of_run Hcompiled ltac:(apply collectResults_names).
  unfold analyticalOf. rewrite Hderived. subst a.
  unfold resultFor, strictNeq, strictEq, Math_abs. simpl.
  split; [reflexivity|].
  destruct (PrimFloat.eqb _ 0); simpl; [reflexivity|].
  now rewrite abs_div.
Qed.

(** C7. When the symbolic derivative cannot be produced,
    [getAnalyticalDerivative] returns [null] without raising and without
    a setter call; if the expression itself compiles,
    [calculateDerivatives] still reports the estimate of every selected
    registered method, and in every row the analytical value, the
    absolute error and the relative error are all [null]. *)
Theorem missing_derivative_degrades (st : State) (compiled : code) (e : string)
    (Hcompiled : compileExpression (functionInput st) = Normal compiled)
    (Hunderived : compileDerivative (functionInput st) = Throw e) :
  getAnalyticalDerivative (functionInput st) = (Normal None, [])
  /\ exists rs,
       calculateDerivatives st
       = (Normal tt, [SetFunctionError EmptyString; SetResults rs])
       /\ map (fun r => (method r, Some (numerical r))) rs
          = map (fun methodName =>
                   (methodName,
                    estimate methodName (compiledFunction compiled)
                             (evaluationPoint st) (stepSize st)))
                (filter registered (selectedMethods st))
       /\ Forall
            (fun r =>
               analytical r = None
               /\ absoluteError r = None
               /\ relativeError r = None)
            rs.
Proof.
  assert (Hnull : analyticalOf (functionInput st) = None)
    by (unfold analyticalOf; now rewrite Hunderived).
  split.
  - now rewrite getAnalyticalDerivative_eq, Hnull.
  - rows_of_run Hcompiled ltac:(apply collectResults_methods).
    rewrite Hnull. now repeat split.
Qed.

(** C10. When the symbolic derivative compiles but evaluates to NaN at
    the evaluation point, every reported row has NaN (not [null]) as its
    analytical value, its absolute error and its relative error. *)
Theorem nan_reference_is_reported (st : State) (compiled compiledD : code)
    (Hcompiled : compileExpression (functionInput st) = Normal compiled)
    (Hderived : compileDerivative (functionInput st) = Normal compiledD)
    (Hnan : compiledFunction compiledD (evaluationPoint st) = NaN) :
  exists rs,
    calculateDerivatives st
    = (Normal tt, [SetFunctionError EmptyString; SetResults rs])
    /\ map method rs = filter registered (selectedMethods st)
    /\ Forall
         (fun r =>
            analytical r = Some NaN
            /\ absoluteError r = Some NaN
            /\ relativeError r = Some NaN)
         rs.
Proof.
  rows_of_run Hcompiled ltac:(apply collectResults_names).
  unfold analyticalOf. rewrite Hderived.
  unfold resultFor. simpl. rewrite Hnan.
  unfold NaN, Math_abs. rewrite sub_nan_r, div_nan_l.
  change (abs nan) with nan. rewrite mul_nan_l.
  now repeat split.
Qed.

(** C3, as the code has it. When the expression does not compile,
    [calculateDerivatives] completes normally having made exactly one
    setter call, [setFunctionError("Invalid function syntax")]: it
    computes no row, reports the parse error, and leaves [results] as it
    was. *)
Theorem parse_error_short_circuits (st : State) (e : string)
    (Hfailed : compileExpression (functionInput st) = Throw e) :
  calculateDerivatives st
  = (Normal tt, [SetFunctionError "Invalid function syntax"])
  /\ functionError (run (calculateDerivatives st) st)
     = "Invalid function syntax"
  /\ results (run (calculateDerivatives st) st) = results st.
Proof.
  rewrite (calculateDerivatives_failed _ Hfailed). now repeat split.
Qed.

(** C8, as the code has it. The function [parseFunction] returns for an
    expression that compiles never raises: at every input it completes
    normally, returning unchanged the value evaluation returns (an
    infinity for a division by zero, and likewise any value of any kind
    the library returns instead of raising) and returning NaN when
    evaluation raises. *)
Theorem compiled_function_total (input : string) (f : number -> number)
    (Hparsed : completionOf (parseFunction input) = Normal (Some f)) :
  (exists compiled,
      compileExpression input = Normal compiled
      /\ forall x,
           guardedEvaluate compiled x = Normal (f x)
           /\ guardedEvaluate compiled x
              = guardedCall (fun n => n) (evaluate compiled x)
           /\ f x = match evaluate compiled x with
                    | Normal v => v
                    | Throw _ => NaN
                    end)
  /\ forall (V : Type) (ofNumber : number -> V) (call : completion V),
       guardedCall ofNumber call
       = Normal match call with
                | Normal v => v
                | Throw _ => ofNumber NaN
                end.
Proof.
  split.
  - destruct (compileExpression input) as [compiled|e] eqn:Hc.
    + rewrite (parseFunction_compiled _ Hc) in Hparsed.
      injection Hparsed as <-.
      exists compiled. split; [reflexivity|]. intros x.
      split; [apply guardedEvaluate_normal | split; [reflexivity|]].
      unfold compiledFunction, guardedEvaluate.
      now destruct (evaluate compiled x).
    + rewrite (parseFunction_failed _ Hc) in Hparsed. discriminate.
  - intros V ofNumber call. now destruct call.
Qed.

(** ** The convergence sweep *)

Lemma generateErrorData_eq (st : State) :
  generateErrorData Math_pow st
  = match compileExpression (functionInput st),
          analyticalOf (functionInput st) with
    | Normal compiled, Some analyticalDerivative =>
        (Normal tt,
         [SetErrorData
            (collectTraces Math_pow (compiledFunction compiled)
               analyticalDerivative (evaluationPoint st)
               (selectedMethods st))])
    | Normal _, None => (Normal tt, [])
    | Throw _, _ => (Normal tt, [SetFunctionError "Invalid function syntax"])
    end.
Proof.
  unfold generateErrorData.
  destruct (compileExpression (functionInput st)) as [compiled|e] eqn:Hc.
  - rewrite (parseFunction_compiled _ Hc), getAnalyticalDerivative_eq.
    now destruct (analyticalOf (functionInput st)).
  - rewrite (parseFunction_failed _ Hc), getAnalyticalDerivative_eq.
    now destruct (analyticalOf (functionInput st)).
Qed.

Lemma length_stepSizes : length (stepSizes Math_pow) = 20%nat.
Proof. unfold stepSizes. now rewrite length_map, length_seq. Qed.

Lemma collectTraces_series (func analyticalDerivative : number -> number)
    (x : number) (selected : list string) :
  map (fun t => (trace_name t, combine (trace_x t) (trace_y t)))
      (collectTraces Math_pow func analyticalDerivative x selected)
  = flat_map
      (fun methodName =>
         match findMethod methodName with
         | None => []
         | Some method =>
             [((methodName ++ " Error")%string,
               map (fun h =>
                      (h, Math_abs (calculate method func x h
                                    - analyticalDerivative x)))
                   (stepSizes Math_pow))]
         end)
      selected.
Proof.
  unfold collectTraces. rewrite forEach_push_acc. cbn [app].
  induction selected as [|methodName selected IH];
    cbn [flat_map]; [reflexivity|].
  rewrite map_app, IH. f_equal.
  destruct (findMethod methodName) as [m|]; [|reflexivity].
  unfold traceFor. cbn [map trace_name trace_x trace_y].
  now rewrite combine_map_r.
Qed.

Lemma collectTraces_lengths (func analyticalDerivative : number -> number)
    (x : number) (selected : list string) :
  Forall
    (fun t => trace_x t = stepSizes Math_pow
              /\ length (trace_y t) = 20%nat)
    (collectTraces Math_pow func analyticalDerivative x selected).
Proof.
  unfold collectTraces. rewrite forEach_push_acc.
  apply Forall_flat_map, Forall_forall. intros methodName _.
  destruct (findMethod methodName) as [m|]; constructor; [|constructor].
  unfold traceFor. cbn [trace_x trace_y]. split; [reflexivity|].
  now rewrite length_map, length_stepSizes.
Qed.

(** The traces of a sweep, keyed by the names of the registry: each
    selected registered name, in order, with the absolute errors of the
    estimate registered under that name. *)
Lemma collectTraces_estimates (func analyticalDerivative : number -> number)
    (x : number) (selected : list string) :
  map (fun t => (trace_name t, map Some (trace_y t)))
      (collectTraces Math_pow func analyticalDerivative x selected)
  = map (fun methodName =>
           ((methodName ++ " Error")%string,
            map (fun h =>
                   option_map
                     (fun numerical =>
                        Math_abs (numerical - analyticalDerivative x))
                     (estimate methodName func x h))
                (stepSizes Math_pow)))
        (filter registered selected).
Proof.
  unfold collectTraces. rewrite forEach_push_acc. cbn [app].
  induction selected as [|methodName selected IH];
    cbn [flat_map filter]; [reflexivity|].
  rewrite map_app, IH, findMethod_registered. unfold estimate.
  destruct (findMethod methodName) as [m|] eqn:Hfind; [|reflexivity].
  cbn [map app option_map]. f_equal. unfold traceFor.
  cbn [trace_name trace_y]. f_equal. rewrite map_map.
  apply map_ext. intros h. now rewrite Hfind.
Qed.

Lemma collectTraces_names (func analyticalDerivative : number -> number)
    (x : number) (selected : list string) :
  map trace_name
      (collectTraces Math_pow func analyticalDerivative x selected)
  = map (fun methodName => (methodName ++ " Error")%string)
        (filter registered selected).
Proof.
  pose proof (collectTraces_estimates func analyticalDerivative x selected)
    as Hrows.
  apply (f_equal (map fst)) in Hrows.
  now rewrite !map_map in Hrows.
Qed.

(** C4. The sweep uses the 20 step sizes Math.pow(10, -4 + i * 0.2),
    i = 0..19, in that order; when the expression and its symbolic
    derivative both compile, [generateErrorData] sets [errorData] to one
    trace per selected name of the registry, in the order of the
    selection and named after it, whose points are the pairs
    (h, |numerical - analytical|) for the step sizes h in order,
    numerical being the estimate of the method registered under that name
    at the evaluation point with step h and analytical the value of the
    derivative at the evaluation point. *)
Theorem sweep_series (st : State) (compiled compiledD : code)
    (Hcompiled : compileExpression (functionInput st) = Normal compiled)
    (Hderived : compileDerivative (functionInput st) = Normal compiledD) :
  length (stepSizes Math_pow) = 20%nat
  /\ stepSizes Math_pow
     = map (fun i => Math_pow 10 (-4 + ofIndex i * 0x1.999999999999ap-3))
           [0; 1; 2; 3; 4; 5; 6; 7; 8; 9;
            10; 11; 12; 13; 14; 15; 16; 17; 18; 19]%nat
  /\ stepSizes Math_pow
     = map (fun i : number => Math_pow 10 (-4 + i * 0x1.999999999999ap-3))
           [0; 1; 2; 3; 4; 5; 6; 7; 8; 9;
            10; 11; 12; 13; 14; 15; 16; 17; 18; 19]
  /\ exists ts,
       generateErrorData Math_pow st = (Normal tt, [SetErrorData ts])
       /\ errorData (run (generateErrorData Math_pow st) st) = ts
       /\ Forall (fun t => trace_x t = stepSizes Math_pow
                           /\ length (trace_y t) = 20%nat) ts
       /\ map trace_name ts
          = map (fun methodName => (methodName ++ " Error")%string)
                (filter registered (selectedMethods st))
       /\ map (fun t => (trace_name t, map Some (trace_y t))) ts
          = map (fun methodName =>
                   ((methodName ++ " Error")%string,
                    map (fun h =>
                           option_map
                             (fun numerical =>
                                Math_abs
                                  (numerical
                                   - compiledFunction compiledD
                                       (evaluationPoint st)))
                             (estimate methodName (compiledFunction compiled)
                                       (evaluationPoint st) h))
                        (stepSizes Math_pow)))
                (filter registered (selectedMethods st))
       /\ map (fun t => (trace_name t, combine (trace_x t) (trace_y t))) ts
          = flat_map
              (fun methodName =>
                 match findMethod methodName with
                 | None => []
                 | Some method =>
                     [((methodName ++ " Error")%string,
                       map (fun h =>
                              (h,
                               Math_abs
                                 (calculate method (compiledFunction compiled)
                                            (evaluationPoint st) h
                                  - compiledFunction compiledD
                                      (evaluationPoint st))))
                           (stepSizes Math_pow))]
                 end)
              (selectedMethods st).
Proof.
  split; [apply length_stepSizes | split; [reflexivity | split; [reflexivity|]]].
  rewrite generateErrorData_eq, Hcompiled.
  unfold analyticalOf. rewrite Hderived.
  eexists. split; [reflexivity | split; [reflexivity | repeat split]].
  - apply collectTraces_lengths.
  - apply collectTraces_names.
  - apply collectTraces_estimates.
  - apply collectTraces_series.
Qed.

(** C5. When the expression or its symbolic derivative fails to compile,
    [generateErrorData] completes normally without calling
    [setErrorData] at all: no series is produced for any method, and
    [errorData] is not written. *)
Theorem sweep_requires_both (st : State)
    (Hmissing :
       threw (compileExpression (functionInput st))
       || threw (compileDerivative (functionInput st)) = true) :
  completionOf (generateErrorData Math_pow st) = Normal tt
  /\ (forall ts,
        ~ In (SetErrorData ts) (updatesOf (generateErrorData Math_pow st)))
  /\ errorData (run (generateErrorData Math_pow st) st) = errorData st.
Proof.
  rewrite generateErrorData_eq. unfold analyticalOf.
  destruct (compileExpression (functionInput st)) as [compiled|e];
    destruct (compileDerivative (functionInput st)) as [compiledD|e'];
    simpl in Hmissing; try discriminate; simpl.
  - repeat split. intros ts [].
  - repeat split. intros ts [Habs|[]]. discriminate.
  - repeat split. intros ts [Habs|[]]. discriminate.
Qed.

End PageTheorems.

(* ================================================================== *)
(** * The theorems at concrete inputs *)

Section Instances.
Import Sample.
#[local] Open Scope float_scope.

(** The default inputs of the page: [x^2 + 2*x + 1] at 1 with step 0.1
    and the central difference. *)
Example default_inputs_row :
  results (run (calculateDerivatives initial) initial)
  = [ {| method := "Central Difference";
         numerical := 0x1.ffffffffffffep+1;
         analytical := Some 4;
         absoluteError := Some 0x1p-50;
         relativeError := Some 0x1.9p-46;
         resultFormula := "(f(x+h) - f(x-h)) / (2h)";
         resultOrder := "O(h²)";
         resultColor := "#10b981" |} ].
Proof. vm_compute. reflexivity. Qed.

(** In binary64 the identity of C9 is not exact: for [x*x] at 1 with
    step 0.1 the central estimate and the mean of the other two differ in
    the last place. *)
Remark central_mean_rounds_in_binary64 :
  estimate "Central Difference" (fun x => x * x) 1 0x1.999999999999ap-4
  = Some 0x1.0000000000001p+1
  /\ estimate "Forward Difference" (fun x => x * x) 1 0x1.999999999999ap-4
     = Some 0x1.0ccccccccccd1p+1
  /\ estimate "Backward Difference" (fun x => x * x) 1 0x1.999999999999ap-4
     = Some 0x1.e666666666664p+0
  /\ (0x1.0ccccccccccd1p+1 + 0x1.e666666666664p+0) / 2
     = 0x1.0000000000002p+1.
Proof. vm_compute. repeat split. Qed.

(** A run of C6: [x*x] compiles; of the selection Forward, Simpson,
    Central the two registered names get a row each. *)
Lemma one_result_per_registered_method_witness :
  compileExpression "x*x" = Normal (Mul VarX VarX)
  /\ exists rs,
       calculateDerivatives flat
       = (Normal tt, [SetFunctionError EmptyString; SetResults rs])
       /\ results (run (calculateDerivatives flat) flat) = rs
       /\ map method rs = ["Forward Difference"; "Central Difference"]
       /\ map (fun r => (method r, Some (numerical r))) rs
          = map (fun methodName =>
                   (methodName,
                    estimate (num := number) methodName (compiledFunction (Mul VarX VarX))
                             (evaluationPoint flat) (stepSize flat)))
                (filter registered (selectedMethods flat)).
Proof.
  split; [reflexivity|].
  exact (one_result_per_registered_method flat (compiled := Mul VarX VarX)
           eq_refl).
Defined.

(** A run of C2: the derivative of [x*x] is 0 at 0, so both rows have
    no relative error. *)
Lemma relative_error_reported_witness :
  compileExpression "x*x" = Normal (Mul VarX VarX)
  /\ compileDerivative "x*x"
     = Normal (Add (Mul (Const 1) VarX) (Mul VarX (Const 1)))
  /\ exists rs,
       calculateDerivatives flat
       = (Normal tt, [SetFunctionError EmptyString; SetResults rs])
       /\ map method rs = ["Forward Difference"; "Central Difference"]
       /\ Forall
            (fun r =>
               analytical r = Some 0
               /\ relativeError r
                  = if strictEq 0 0
                    then None
                    else Some (Math_abs (numerical r - 0) / Math_abs 0 * 100))
            rs.
Proof.
  split; [reflexivity | split; [reflexivity|]].
  exact (relative_error_reported flat
           (compiled := Mul VarX VarX)
           (compiledD := Add (Mul (Const 1) VarX) (Mul VarX (Const 1)))
           eq_refl eq_refl).
Defined.

(** A run of C7: [sign(x)] evaluates but cannot be differentiated. *)
Lemma missing_derivative_degrades_witness :
  compileExpression "sign(x)" = Normal (Sign VarX)
  /\ compileDerivative "sign(x)"
     = Throw "Function sign is not supported by derivative"
  /\ getAnalyticalDerivative (functionInput underived) = (Normal None, [])
  /\ exists rs,
       calculateDerivatives underived
       = (Normal tt, [SetFunctionError EmptyString; SetResults rs])
       /\ map (fun r => (method r, Some (numerical r))) rs
          = map (fun methodName =>
                   (methodName,
                    estimate (num := number) methodName (compiledFunction (Sign VarX))
                             (evaluationPoint underived)
                             (stepSize underived)))
                (filter registered (selectedMethods underived))
       /\ Forall
            (fun r =>
               analytical r = None
               /\ absoluteError r = None
               /\ relativeError r = None)
            rs.
Proof.
  split; [reflexivity | split; [reflexivity|]].
  exact (missing_derivative_degrades underived
           (compiled := Sign VarX)
           (e := "Function sign is not supported by derivative")
           eq_refl eq_refl).
Defined.

(** A run of C10: the derivative of [x/x] is 0/0 at 0. *)
Lemma nan_reference_is_reported_witness :
  compileExpression "x/x" = Normal (Div VarX VarX)
  /\ compiledFunction
       (Div (Sub (Mul (Const 1) VarX) (Mul VarX (Const 1)))
            (Mul VarX VarX)) 0 = NaN
  /\ exists rs,
       calculateDerivatives singular
       = (Normal tt, [SetFunctionError EmptyString; SetResults rs])
       /\ map method rs = ["Forward Difference"; "Central Difference"]
       /\ Forall
            (fun r =>
               analytical r = Some NaN
               /\ absoluteError r = Some NaN
               /\ relativeError r = Some NaN)
            rs.
Proof.
  split; [reflexivity | split; [reflexivity|]].
  exact (nan_reference_is_reported singular
           (compiled := Div VarX VarX)
           (compiledD := Div (Sub (Mul (Const 1) VarX) (Mul VarX (Const 1)))
                             (Mul VarX VarX))
           eq_refl eq_refl eq_refl).
Defined.

(** C3 as stated fails: after a run on the default inputs the input is
    edited to [x^^2], which does not parse; the next run leaves the row
    of the earlier run in [results] instead of emptying it. *)
Lemma stale_results_survive_parse_error :
  compileExpression (functionInput stale) = Throw "SyntaxError"
  /\ List.length (results stale) = 1%nat
  /\ results (run (calculateDerivatives stale) stale) <> [].
Proof.
  split; [reflexivity | split; [reflexivity|]].
  vm_compute. discriminate.
Qed.

(** A run of C3 as the code has it, on the same state. *)
Lemma parse_error_short_circuits_witness :
  compileExpression (functionInput stale) = Throw "SyntaxError"
  /\ calculateDerivatives stale
     = (Normal tt, [SetFunctionError "Invalid function syntax"])
  /\ functionError (run (calculateDerivatives stale) stale)
     = "Invalid function syntax"
  /\ results (run (calculateDerivatives stale) stale) = results stale.
Proof.
  split; [reflexivity|].
  exact (parse_error_short_circuits stale (e := "SyntaxError") eq_refl).
Defined.

(** C8 as stated fails: [1/x] compiles, and at 0 its evaluation is the
    division by zero; nothing is raised, and the function [parseFunction]
    returned gives [+infinity] there, not NaN. *)
Lemma division_by_zero_is_not_nan :
  completionOf (parseFunction "1/x")
  = Normal (Some (compiledFunction (Div (Const 1) VarX)))
  /\ evaluate (Div (Const 1) VarX) 0 = Normal infinity
  /\ compiledFunction (Div (Const 1) VarX) 0 = infinity
  /\ compiledFunction (Div (Const 1) VarX) 0 <> NaN.
Proof.
  repeat split; try reflexivity.
  intros Hnan. apply (f_equal is_nan) in Hnan.
  vm_compute in Hnan. discriminate.
Qed.

(** A run of C8 as the code has it: [x + y] compiles, and evaluating it
    raises at every input because [y] is undefined; the function returned
    is NaN everywhere. *)
Lemma compiled_function_total_witness :
  completionOf (parseFunction "x + y")
  = Normal (Some (compiledFunction (Add VarX (Symbol "y"))))
  /\ (exists compiled,
         compileExpression "x + y" = Normal compiled
         /\ forall x,
              guardedEvaluate compiled x
              = Normal (compiledFunction (Add VarX (Symbol "y")) x)
              /\ guardedEvaluate compiled x
                 = guardedCall (fun n => n) (evaluate compiled x)
              /\ compiledFunction (Add VarX (Symbol "y")) x
                 = match evaluate compiled x with
                   | Normal v => v
                   | Throw _ => NaN
                   end)
  /\ forall (V : Type) (ofNumber : number -> V) (call : completion V),
       guardedCall ofNumber call
       = Normal match call with
                | Normal v => v
                | Throw _ => ofNumber NaN
                end.
Proof.
  split; [reflexivity|].
  exact (compiled_function_total "x + y"
           (f := compiledFunction (Add VarX (Symbol "y"))) eq_refl).
Defined.

(** A run of C4: the sweep for [x*x] at 0, with Forward, Simpson and
    Central selected. *)
Lemma sweep_series_witness :
  compileExpression "x*x" = Normal (Mul VarX VarX)
  /\ compileDerivative "x*x"
     = Normal (Add (Mul (Const 1) VarX) (Mul VarX (Const 1)))
  /\ List.length (stepSizes pow) = 20%nat
  /\ stepSizes pow
     = map (fun i => pow 10 (-4 + ofIndex i * 0x1.999999999999ap-3))
           [0; 1; 2; 3; 4; 5; 6; 7; 8; 9;
            10; 11; 12; 13; 14; 15; 16; 17; 18; 19]%nat
  /\ stepSizes pow
     = map (fun i : number => pow 10 (-4 + i * 0x1.999999999999ap-3))
           [0; 1; 2; 3; 4; 5; 6; 7; 8; 9;
            10; 11; 12; 13; 14; 15; 16; 17; 18; 19]
  /\ exists ts,
       generateErrorData pow flat = (Normal tt, [SetErrorData ts])
       /\ errorData (run (generateErrorData pow flat) flat) = ts
       /\ Forall (fun t => trace_x t = stepSizes pow
                           /\ List.length (trace_y t) = 20%nat) ts
       /\ map trace_name ts
          = ["Forward Difference Error"; "Central Difference Error"]
       /\ map (fun t => (trace_name t, map Some (trace_y t))) ts
          = map (fun methodName =>
                   ((methodName ++ " Error")%string,
                    map (fun h =>
                           option_map
                             (fun numerical =>
                                Math_abs
                                  (numerical
                                   - compiledFunction
                                       (Add (Mul (Const 1) VarX)
                                            (Mul VarX (Const 1)))
                                       (evaluationPoint flat)))
                             (estimate (num := number) methodName
                                       (compiledFunction (Mul VarX VarX))
                                       (evaluationPoint flat) h))
                        (stepSizes pow)))
                (filter registered (selectedMethods flat))
       /\ map (fun t => (trace_name t, combine (trace_x t) (trace_y t))) ts
          = flat_map
              (fun methodName =>
                 match findMethod (num := number) methodName with
                 | None => []
                 | Some method =>
                     [((methodName ++ " Error")%string,
                       map (fun h =>
                              (h,
                               Math_abs
                                 (calculate method
                                    (compiledFunction (Mul VarX VarX))
                                    (evaluationPoint flat) h
                                  - compiledFunction
                                      (Add (Mul (Const 1) VarX)
                                           (Mul VarX (Const 1)))
                                      (evaluationPoint flat))))
                           (stepSizes pow))]
                 end)
              (selectedMethods flat).
Proof.
  split; [reflexivity | split; [reflexivity|]].
  exact (sweep_series pow flat
           (compiled := Mul VarX VarX)
           (compiledD := Add (Mul (Const 1) VarX) (Mul VarX (Const 1)))
           eq_refl eq_refl).
Defined.

(** A run of C5: no series for [sign(x)]. *)
Lemma sweep_requires_both_witness :
  threw (compileExpression "sign(x)") || threw (compileDerivative "sign(x)")
  = true
  /\ completionOf (generateErrorData pow underived) = Normal tt
  /\ (forall ts,
        ~ In (SetErrorData ts) (updatesOf (generateErrorData pow underived)))
  /\ errorData (run (generateErrorData pow underived) underived)
     = errorData underived.
Proof.
  split; [reflexivity|].
  exact (sweep_requires_both pow underived eq_refl).
Defined.

End Instances.

(* ================================================================== *)
(** * Further properties of the page *)

(** ** More binary64 facts *)

Section MoreFloatFacts.
#[local] Open Scope float_scope.

Lemma sub_nan_l (y : float) : nan - y = nan.
Proof.
  apply Prim2SF_inj. rewrite sub_spec.
  change (Prim2SF nan) with S754_nan. reflexivity.
Qed.

Lemma sub_zero_r (x : float) : x - 0 = x.
Proof.
  apply Prim2SF_inj. rewrite sub_spec.
  change (Prim2SF 0) with (S754_zero false).
  unfold SF64sub, SFsub.
  destruct (Prim2SF x) as [[|]|[|]| |[|] m e]; reflexivity.
Qed.

(** [x + 0] is [x] unless [x] is the negative zero, where it is [+0]. *)
Lemma add_zero_r (x : float) : classify x <> NZero -> x + 0 = x.
Proof.
  intros Hx. apply Prim2SF_inj. rewrite add_spec.
  rewrite classify_spec in Hx.
  change (Prim2SF 0) with (S754_zero false).
  unfold SF64add, SFadd.
  destruct (Prim2SF x) as [[|]|[|]| |[|] m e]; try reflexivity.
  now elim Hx.
Qed.

(** A value minus itself is [+0], or NaN for an infinity or NaN. *)
Lemma sub_diag (x : float) : x - x = 0 \/ x - x = nan.
Proof.
  destruct (Prim2SF x) as [s|s| |s m e] eqn:Hx.
  - left. apply Prim2SF_inj. rewrite sub_spec, Hx. now destruct s.
  - right. apply Prim2SF_inj. rewrite sub_spec, Hx. now destruct s.
  - right. apply Prim2SF_inj. rewrite sub_spec, Hx. reflexivity.
  - left. apply Prim2SF_inj. rewrite sub_spec, Hx.
    unfold SF64sub, SFsub. rewrite Z.sub_diag. reflexivity.
Qed.

Lemma sub_diag_div_zero (x : float) : (x - x) / 0 = nan.
Proof. destruct (sub_diag x) as [-> | ->]; reflexivity. Qed.

Lemma SFltb_round_zero (m e : Z) (l : location) :
  SFltb (binary_round_aux prec emax false m e l) (S754_zero false) = false.
Proof.
  unfold binary_round_aux.
  destruct (shr_fexp prec emax m e l) as [mrs' e'].
  destruct (shr_fexp prec emax _ e' loc_Exact) as [mrs'' e''].
  destruct (shr_m mrs''); try reflexivity.
  now destruct (Z.leb _ _).
Qed.

Lemma abs_not_negative (x : float) : (abs x <? 0) = false.
Proof.
  rewrite ltb_spec, abs_spec.
  change (Prim2SF 0) with (S754_zero false).
  now destruct (Prim2SF x).
Qed.

Lemma abs_times_100_not_negative (x : float) : (abs x * 100 <? 0) = false.
Proof.
  rewrite ltb_spec, mul_spec, abs_spec.
  change (Prim2SF 0) with (S754_zero false).
  destruct (Prim2SF 100) as [s|s| |s m e] eqn:H100; try discriminate.
  assert (s = false) by (vm_compute in H100; congruence). subst s.
  unfold SF64mul.
  destruct (Prim2SF x) as [sx|sx| |sx mx ex]; try reflexivity.
  cbn [SFabs SFmul xorb]. apply SFltb_round_zero.
Qed.

(** The numbers [h] with [h === 0] are the two zeros. *)
Lemma strict_zero_cases (h : float) : (h =? 0) = true -> h = 0 \/ h = - 0.
Proof.
  rewrite FloatAxioms.eqb_spec. change (Prim2SF 0) with (S754_zero false).
  destruct (Prim2SF h) as [[|]|[|]| |[|] m e] eqn:Hh; try discriminate;
    intros _.
  - right. apply Prim2SF_inj. now rewrite Hh.
  - left. apply Prim2SF_inj. now rewrite Hh.
Qed.

(** [x - (-0)] is [x] unless [x] is the negative zero, where it is
    [+0]. *)
Lemma sub_negzero_r (x : float) : classify x <> NZero -> x - (- 0) = x.
Proof.
  intros Hx. apply Prim2SF_inj. rewrite sub_spec.
  rewrite classify_spec in Hx.
  change (Prim2SF (- 0)) with (S754_zero true).
  unfold SF64sub, SFsub.
  destruct (Prim2SF x) as [[|]|[|]| |[|] m e]; try reflexivity.
  now elim Hx.
Qed.

Lemma sub_diag_div_negzero (x : float) : (x - x) / (- 0) = nan.
Proof. destruct (sub_diag x) as [-> | ->]; reflexivity. Qed.

End MoreFloatFacts.

(** ** The estimators at the edges of binary64 *)

Section EstimatorEdges.
#[local] Open Scope float_scope.

(** X1. If the function is NaN at the evaluation point (evaluation failed
    there, or 0/0), the Forward and Backward Difference estimates are NaN
    for every step, whatever the function is elsewhere. *)
Theorem nan_at_point_poisons_one_sided (f : number -> number) (x h : number)
    (Hnan : f x = NaN) :
  estimate "Forward Difference" f x h = Some NaN
  /\ estimate "Backward Difference" f x h = Some NaN.
Proof.
  unfold NaN in *. cbn. rewrite Hnan, sub_nan_r, sub_nan_l, div_nan_l.
  now split.
Qed.

(** X2. With a zero step ([h === 0], that is [+0] or [-0]) the Backward
    Difference estimate is NaN for every function at every point other
    than the negative zero, and at the negative zero as well when the
    step is [+0]: nothing guards the division by [h]. *)
Theorem backward_zero_step_is_nan (f : number -> number) (x h : number)
    (Hzero : strictEq h 0 = true)
    (Hcase : classify x <> NZero \/ classify h = PZero) :
  estimate "Backward Difference" f x h = Some NaN.
Proof.
  unfold strictEq in Hzero.
  destruct (strict_zero_cases Hzero) as [-> | ->]; cbn.
  - now rewrite sub_zero_r, sub_diag_div_zero.
  - destruct Hcase as [Hx | Hpos].
    + pose proof (sub_negzero_r Hx) as Hsub.
      pose proof (sub_diag_div_negzero (f x)) as Hdiv.
      cbn in Hsub, Hdiv. now rewrite Hsub, Hdiv.
    + vm_compute in Hpos. discriminate.
Qed.

(** X3. With step 0 the Forward and Central Difference estimates are NaN
    for every function, at every point other than the negative zero. *)
Theorem forward_central_zero_step_are_nan (f : number -> number) (x : number)
    (Hx : classify x <> NZero) :
  estimate "Forward Difference" f x 0 = Some NaN
  /\ estimate "Central Difference" f x 0 = Some NaN.
Proof.
  cbn. rewrite sub_zero_r, (add_zero_r Hx).
  change (2 * 0) with 0. now rewrite sub_diag_div_zero.
Qed.

End EstimatorEdges.

Section EstimatorEdgeRuns.
#[local] Open Scope float_scope.

(** A run of X1: [t / t] is 0/0 at 0. *)
Lemma nan_at_point_poisons_one_sided_witness :
  (fun t : number => t / t) 0 = NaN
  /\ estimate "Forward Difference" (fun t : number => t / t) 0
              0x1.999999999999ap-4 = Some NaN
  /\ estimate "Backward Difference" (fun t : number => t / t) 0
              0x1.999999999999ap-4 = Some NaN.
Proof.
  split; [reflexivity|].
  exact (nan_at_point_poisons_one_sided (fun t : number => t / t) 0
           0x1.999999999999ap-4 eq_refl).
Defined.

(** A run of X2 at the point 1 with the step [-0]. *)
Lemma backward_zero_step_is_nan_witness :
  strictEq (- 0) 0 = true
  /\ (classify 1 <> NZero \/ classify (- 0) = PZero)
  /\ estimate "Backward Difference" (fun t : number => t * t) 1 (- 0)
     = Some NaN.
Proof.
  assert (Hcase : classify 1 <> NZero \/ classify (- 0) = PZero)
    by (left; vm_compute; discriminate).
  split; [reflexivity | split; [exact Hcase|]].
  exact (@backward_zero_step_is_nan (fun t : number => t * t) 1 (- 0)
           eq_refl Hcase).
Defined.

(** The exclusion of X2 is needed: at the negative zero with the step
    [-0], [x - h] is [+0], and the Backward Difference of [1/t] is
    [+infinity]. *)
Remark backward_negative_zero_step_at_negative_zero :
  estimate "Backward Difference" (fun t : number => 1 / t) (- 0) (- 0)
  = Some infinity.
Proof. vm_compute. reflexivity. Qed.

(** A run of X3 at the point 1. *)
Lemma forward_central_zero_step_are_nan_witness :
  classify 1 <> NZero
  /\ estimate "Forward Difference" (fun t : number => t * t) 1 0 = Some NaN
  /\ estimate "Central Difference" (fun t : number => t * t) 1 0 = Some NaN.
Proof.
  assert (Hone : classify 1 <> NZero) by (vm_compute; discriminate).
  split; [exact Hone|].
  exact (@forward_central_zero_step_are_nan (fun t : number => t * t) 1 Hone).
Defined.

(** At the negative zero the exclusion of X3 is needed: [1/t] is
    [+infinity] at [-0 + 0] and [-infinity] at [-0], and the Forward
    Difference with step 0 is [+infinity]. *)
Remark forward_zero_step_at_negative_zero :
  estimate "Forward Difference" (fun t : number => 1 / t) (-0) 0
  = Some infinity.
Proof. vm_compute. reflexivity. Qed.

End EstimatorEdgeRuns.

(** ** Rows and reruns of the orchestrator *)

Section MoreOrchestrator.
Context {mathjs : MathJs}.
Variable Math_pow : number -> number -> number.

#[local] Open Scope float_scope.

Lemma registered_In (methodName : string) :
  registered methodName = true ->
  In methodName (map (@name number) methods).
Proof.
  unfold registered. intros Hreg.
  apply existsb_exists in Hreg as (known & Hin & Heq).
  apply String.eqb_eq in Heq. now subst.
Qed.

Lemma findMethod_Some_name (methodName : string)
    (m : DifferentiationMethod number) :
  findMethod methodName = Some m -> name m = methodName.
Proof.
  unfold findMethod. intros Hfind.
  apply find_some in Hfind. now apply String.eqb_eq.
Qed.

(** X4. In every row of a successful run, an absolute error and a
    relative error that are present are never below zero ([e < 0] is
    false: they are NaN, zero or positive). *)
Theorem reported_errors_never_negative (st : State) (compiled : code)
    (Hcompiled : compileExpression (functionInput st) = Normal compiled) :
  exists rs,
    calculateDerivatives st
    = (Normal tt, [SetFunctionError EmptyString; SetResults rs])
    /\ Forall
         (fun r =>
            match absoluteError r with
            | Some e => (e <? 0) = false
            | None => True
            end
            /\ match relativeError r with
               | Some e => (e <? 0) = false
               | None => True
               end)
         rs.
Proof.
  rewrite (calculateDerivatives_compiled _ Hcompiled).
  eexists. split; [reflexivity|].
  eapply Forall_impl; [|apply collectResults_rows].
  intros r (methodName & m & _ & ->).
  unfold resultFor, Math_abs. cbn [absoluteError relativeError].
  destruct (analyticalOf (functionInput st)) as [d|]; [|now split].
  split; [apply abs_not_negative|].
  destruct (strictNeq _ 0); [apply abs_times_100_not_negative | exact I].
Qed.

(** X5. Every row of a successful run agrees with the registry entry of
    its method name (estimate, formula, order and colour), its absolute
    error is present exactly when its analytical value is, and its
    relative error is missing exactly when the analytical value is
    missing or zero. *)
Theorem rows_are_consistent (st : State) (compiled : code)
    (Hcompiled : compileExpression (functionInput st) = Normal compiled) :
  exists rs,
    calculateDerivatives st
    = (Normal tt, [SetFunctionError EmptyString; SetResults rs])
    /\ Forall
         (fun r =>
            (exists m,
                findMethod (method r) = Some m
                /\ name m = method r
                /\ numerical r
                   = calculate m (compiledFunction compiled)
                               (evaluationPoint st) (stepSize st)
                /\ resultFormula r = formula m
                /\ resultOrder r = order m
                /\ resultColor r = color m)
            /\ match analytical r with
               | None => absoluteError r = None /\ relativeError r = None
               | Some a =>
                   absoluteError r = Some (Math_abs (numerical r - a))
                   /\ (relativeError r = None <-> strictEq a 0 = true)
               end)
         rs.
Proof.
  rewrite (calculateDerivatives_compiled _ Hcompiled).
  eexists. split; [reflexivity|].
  eapply Forall_impl; [|apply collectResults_rows].
  intros r (methodName & m & Hfind & ->). split.
  - exists m. cbn. pose proof (findMethod_Some_name _ Hfind) as Hname.
    now repeat split.
  - unfold resultFor. cbn.
    destruct (analyticalOf (functionInput st)) as [d|]; [|now split].
    split; [reflexivity|].
    unfold strictNeq, strictEq. destruct (PrimFloat.eqb (d _) 0); cbn.
    + now split.
    + split; discriminate.
Qed.

(** X6. A run of [calculateDerivatives] changes none of the inputs and
    not [errorData], and running it again on the state it leaves changes
    nothing: recomputation is idempotent, whether or not the expression
    compiles. *)
Theorem recomputation_is_idempotent (st : State) :
  let st' := run (calculateDerivatives st) st in
  functionInput st' = functionInput st
  /\ evaluationPoint st' = evaluationPoint st
  /\ stepSize st' = stepSize st
  /\ selectedMethods st' = selectedMethods st
  /\ errorData st' = errorData st
  /\ run (calculateDerivatives st') st' = st'.
Proof.
  intros st'. subst st'.
  destruct (compileExpression (functionInput st)) as [compiled|e] eqn:Hc.
  - rewrite (calculateDerivatives_compiled _ Hc). cbn.
    repeat split.
    match goal with |- run (calculateDerivatives ?s) _ = _ =>
      rewrite (calculateDerivatives_compiled s (compiled := compiled) Hc)
    end.
    reflexivity.
  - rewrite (calculateDerivatives_failed _ Hc). cbn.
    repeat split.
    match goal with |- run (calculateDerivatives ?s) _ = _ =>
      rewrite (calculateDerivatives_failed s (e := e) Hc)
    end.
    reflexivity.
Qed.

(** X7. The two engine effects of a render can run in either order:
    applying the setter calls of [calculateDerivatives] and of
    [generateErrorData], both made on the same snapshot, leaves the same
    state whichever ran first. *)
Theorem engine_effects_commute (st : State) :
  commitBoth st (calculateDerivatives st) (generateErrorData Math_pow st)
  = commitBoth st (generateErrorData Math_pow st) (calculateDerivatives st).
Proof.
  unfold commitBoth. rewrite generateErrorData_eq.
  destruct (compileExpression (functionInput st)) as [compiled|e] eqn:Hc.
  - rewrite (calculateDerivatives_compiled _ Hc).
    now destruct (analyticalOf (functionInput st)).
  - now rewrite (calculateDerivatives_failed _ Hc).
Qed.

(** X8. When no method name is selected twice, a successful run reports
    at most three rows. *)
Theorem at_most_three_rows (st : State) (compiled : code)
    (Hcompiled : compileExpression (functionInput st) = Normal compiled)
    (Hnodup : NoDup (selectedMethods st)) :
  (List.length (results (run (calculateDerivatives st) st)) <= 3)%nat.
Proof.
  rewrite (calculateDerivatives_compiled _ Hcompiled). cbn.
  rewrite <- (length_map method), collectResults_names.
  change 3%nat with (List.length (map (@name number) methods)).
  apply NoDup_incl_length.
  - now apply NoDup_filter.
  - intros methodName Hin. apply filter_In in Hin as [_ Hreg].
    now apply registered_In.
Qed.

(** X9. In every trace of a sweep, no absolute error is below zero. *)
Theorem sweep_errors_never_negative (st : State) (compiled compiledD : code)
    (Hcompiled : compileExpression (functionInput st) = Normal compiled)
    (Hderived : compileDerivative (functionInput st) = Normal compiledD) :
  exists ts,
    generateErrorData Math_pow st = (Normal tt, [SetErrorData ts])
    /\ Forall (fun t => Forall (fun e => (e <? 0) = false) (trace_y t)) ts.
Proof.
  rewrite generateErrorData_eq, Hcompiled.
  unfold analyticalOf. rewrite Hderived.
  eexists. split; [reflexivity|].
  unfold collectTraces. rewrite forEach_push_acc. cbn [app].
  apply Forall_flat_map, Forall_forall. intros methodName _.
  destruct (findMethod methodName) as [m|]; constructor; [|constructor].
  unfold traceFor. cbn [trace_y].
  apply Forall_map, Forall_forall. intros h _.
  apply abs_not_negative.
Qed.

End MoreOrchestrator.

(** ** The method checkboxes *)

Section Checkboxes.

Lemma includes_false_filter (selected : list string) (methodName : string) :
  includes selected methodName = false ->
  filter (fun m => negb (String.eqb m methodName)) selected = selected.
Proof.
  unfold includes.
  induction selected as [|m selected IH]; cbn; [reflexivity|].
  intros Hnone. apply orb_false_elim in Hnone as [Hm Hrest].
  rewrite String.eqb_sym, Hm. cbn. now rewrite IH.
Qed.

Lemma includes_In (selected : list string) (methodName : string) :
  includes selected methodName = true <-> In methodName selected.
Proof.
  unfold includes. rewrite existsb_exists. split.
  - intros (m & Hin & Heq). apply String.eqb_eq in Heq. now subst.
  - intros Hin. exists methodName. split; [exact Hin|].
    apply String.eqb_refl.
Qed.

(** X10. After [handleMethodToggle(name, checked)] the checkbox of [name]
    shows [checked], also when the name was selected several times, and
    the checkbox of every other name shows what it showed before. *)
Theorem toggle_sets_only_its_checkbox (methodName other : string)
    (checked : bool) (prev : list string) :
  includes (handleMethodToggle methodName checked prev) other
  = if String.eqb other methodName then checked else includes prev other.
Proof.
  unfold handleMethodToggle, includes. destruct checked.
  - rewrite existsb_app. cbn. rewrite orb_false_r.
    destruct (String.eqb other methodName); [apply orb_true_r|].
    apply orb_false_r.
  - induction prev as [|m prev IH]; cbn.
    + now destruct (String.eqb other methodName).
    + destruct (String.eqb m methodName) eqn:Hm; cbn; rewrite IH.
      * apply String.eqb_eq in Hm. subst m.
        now destruct (String.eqb other methodName).
      * destruct (String.eqb other methodName) eqn:Ho; [|reflexivity].
        apply String.eqb_eq in Ho. subst other.
        now rewrite String.eqb_sym, Hm.
Qed.

(** X11. Checking a name that was not selected and unchecking it again
    gives back the selection as it was, order included. *)
Theorem toggle_round_trip (methodName : string) (prev : list string)
    (Hnew : includes prev methodName = false) :
  handleMethodToggle methodName false (handleMethodToggle methodName true prev)
  = prev.
Proof.
  unfold handleMethodToggle. rewrite filter_app. cbn.
  rewrite String.eqb_refl. cbn.
  now rewrite app_nil_r, includes_false_filter.
Qed.

(** X12. A selection without duplicates stays without duplicates when
    a checkbox is toggled to the opposite of what it shows. *)
Theorem toggle_keeps_selection_duplicate_free (methodName : string)
    (checked : bool) (prev : list string)
    (Hnodup : NoDup prev)
    (Hflip : includes prev methodName = negb checked) :
  NoDup (handleMethodToggle methodName checked prev).
Proof.
  unfold handleMethodToggle. destruct checked; cbn in Hflip.
  - apply NoDup_app; [exact Hnodup | repeat constructor; intros [] |].
    intros m Hin [<-|[]].
    apply includes_In in Hin. congruence.
  - now apply NoDup_filter.
Qed.

End Checkboxes.

(** ** The plot *)

Section PlotTheorems.
Context {mathjs : MathJs}.

#[local] Open Scope float_scope.

Lemma forEach_push_all {A B : Type} (make : A -> B) (l : list A)
    (acc : list B) :
  fold_left (fun acc a => acc ++ [make a]) l acc = acc ++ map make l.
Proof.
  revert acc. induction l as [|a l IH]; intros acc; cbn.
  - now rewrite app_nil_r.
  - now rewrite IH, <- app_assoc.
Qed.

Lemma length_flat_map_registered {B : Type}
    (make : string -> DifferentiationMethod number -> B)
    (selected : list string) :
  List.length
    (flat_map (fun methodName =>
                 match findMethod methodName with
                 | None => []
                 | Some m => [make methodName m]
                 end) selected)
  = List.length (filter registered selected).
Proof.
  induction selected as [|methodName selected IH];
    cbn [flat_map filter]; [reflexivity|].
  rewrite length_app, IH, findMethod_registered.
  now destruct (findMethod methodName).
Qed.

(** X13. When the expression does not compile, [generatePlotData]
    completes having only reported the parse error: it never calls
    [setPlotData], so the plot keeps its earlier traces. *)
Theorem plot_skipped_on_parse_error (showTangentLines : CheckedState)
    (st : State) (e : string)
    (Hfailed : compileExpression (functionInput st) = Throw e) :
  generatePlotData showTangentLines st
  = (Normal tt, [Engine (SetFunctionError "Invalid function syntax")]).
Proof.
  unfold generatePlotData. now rewrite (parseFunction_failed _ Hfailed).
Qed.

(** X14. When the expression compiles, [generatePlotData] makes the one
    call [setPlotData(traces)] where [traces] is, in this order: the
    curve sampled at 200 abscissas, the evaluation point, one tangent per
    row of the [results] of the snapshot if [showTangentLines] is truthy
    (none otherwise), and one trace of sampling points per selected
    registered method; so there are 2 + rows + registered selected names
    of them. *)
Theorem plot_layout (showTangentLines : CheckedState) (st : State)
    (compiled : code)
    (Hcompiled : compileExpression (functionInput st) = Normal compiled) :
  let func := compiledFunction compiled in
  let tangents :=
    if truthy showTangentLines
    then map (tangentTrace func (evaluationPoint st)) (results st)
    else [] in
  exists traces,
    generatePlotData showTangentLines st = (Normal tt, [SetPlotData traces])
    /\ traces
       = curveTrace func (functionInput st) (evaluationPoint st)
         :: pointTrace func (evaluationPoint st)
         :: tangents
         ++ flat_map
              (fun methodName =>
                 match findMethod methodName with
                 | None => []
                 | Some m =>
                     [samplingTrace func (evaluationPoint st) (stepSize st)
                                    methodName m]
                 end)
              (selectedMethods st)
    /\ List.length traces
       = (2 + List.length tangents
          + List.length (filter registered (selectedMethods st)))%nat
    /\ List.length
         (plot_x (curveTrace func (functionInput st) (evaluationPoint st)))
       = 200%nat
    /\ List.length
         (plot_y (curveTrace func (functionInput st) (evaluationPoint st)))
       = 200%nat.
Proof.
  intros func tangents.
  unfold generatePlotData. rewrite (parseFunction_compiled _ Hcompiled).
  cbn [completionOf updatesOf fst snd map app].
  exists (plotTraces func showTangentLines st). split; [reflexivity|].
  assert (Hshape :
    plotTraces func showTangentLines st
    = curveTrace func (functionInput st) (evaluationPoint st)
      :: pointTrace func (evaluationPoint st)
      :: tangents
      ++ flat_map
           (fun methodName =>
              match findMethod methodName with
              | None => []
              | Some m =>
                  [samplingTrace func (evaluationPoint st) (stepSize st)
                                 methodName m]
              end)
           (selectedMethods st)).
  { unfold plotTraces, tangents. rewrite forEach_push_acc.
    destruct (truthy showTangentLines).
    - rewrite forEach_push_all. cbn [app]. reflexivity.
    - reflexivity. }
  split; [exact Hshape | split; [|split]].
  - rewrite Hshape. cbn [List.length].
    rewrite length_app, length_flat_map_registered. reflexivity.
  - unfold curveTrace, xRange. cbn [plot_x].
    now rewrite length_map, length_seq.
  - unfold curveTrace, xRange. cbn [plot_y].
    now rewrite !length_map, length_seq.
Qed.

(** X15. The sampling points plotted for a registered method are two,
    and they are all the estimator looks at: two functions that agree on
    the plotted sampling points get the same estimate from that
    method. *)
Theorem sampling_points_determine_estimate (methodName : string)
    (m : DifferentiationMethod number) (f g : number -> number)
    (x h : number)
    (Hfind : findMethod methodName = Some m)
    (Hagree : Forall (fun p => f p = g p) (samplingPointsOf methodName x h)) :
  List.length (samplingPointsOf methodName x h) = 2%nat
  /\ calculate m f x h = calculate m g x h.
Proof.
  unfold findMethod, methods in Hfind. cbn [find name] in Hfind.
  destruct (String.eqb "Forward Difference" methodName) eqn:Hfwd.
  { apply String.eqb_eq in Hfwd. subst methodName.
    injection Hfind as <-. cbn in *.
    inversion Hagree as [|? ? H0 Hrest]; subst.
    inversion Hrest as [|? ? H1 _]; subst.
    now rewrite H0, H1. }
  destruct (String.eqb "Backward Difference" methodName) eqn:Hbwd.
  { apply String.eqb_eq in Hbwd. subst methodName.
    injection Hfind as <-. cbn in *.
    inversion Hagree as [|? ? H0 Hrest]; subst.
    inversion Hrest as [|? ? H1 _]; subst.
    now rewrite H0, H1. }
  destruct (String.eqb "Central Difference" methodName) eqn:Hctr;
    [|discriminate].
  apply String.eqb_eq in Hctr. subst methodName.
  injection Hfind as <-. cbn in *.
  inversion Hagree as [|? ? H0 Hrest]; subst.
  inversion Hrest as [|? ? H1 _]; subst.
  now rewrite H0, H1.
Qed.

End PlotTheorems.

(** ** The estimators over exact real arithmetic *)

Section ExactEstimators.
#[local] Open Scope R_scope.

(** X16. On a quadratic [a t² + b t + c], with a nonzero step, the
    Forward Difference is the derivative plus [a h], the Backward
    Difference is the derivative minus [a h], and the Central Difference
    is the derivative [2 a x + b] exactly: the first two are first order
    in [h], as declared, and all three are exact on affine functions
    ([a = 0]). *)
Theorem quadratic_truncation_errors (a b c x h : R) (Hh : h <> 0) :
  let f := fun t => a * t * t + b * t + c in
  estimate "Forward Difference" f x h = Some (2 * a * x + b + a * h)
  /\ estimate "Backward Difference" f x h = Some (2 * a * x + b - a * h)
  /\ estimate "Central Difference" f x h = Some (2 * a * x + b).
Proof.
  intros f. subst f. cbn.
  repeat split; f_equal; field; assumption.
Qed.

(** X17. On a cubic [a t³ + b t² + c t + d], with a nonzero step, the
    Central Difference is the derivative plus [a h²]: its error is
    second order in [h], as declared. *)
Theorem cubic_central_error (a b c d x h : R) (Hh : h <> 0) :
  let f := fun t => a * t * t * t + b * t * t + c * t + d in
  estimate "Central Difference" f x h
  = Some (3 * a * x * x + 2 * b * x + c + a * h * h).
Proof.
  intros f. subst f. cbn. f_equal. field. assumption.
Qed.

(** X18. Reflecting the step exchanges the one-sided estimators and
    leaves the central one unchanged: Forward with step [-h] is Backward
    with step [h], Backward with [-h] is Forward with [h], and Central
    with [-h] is Central with [h]. *)
Theorem step_reflection (f : R -> R) (x h : R) :
  estimate "Forward Difference" f x (- h)
  = estimate "Backward Difference" f x h
  /\ estimate "Backward Difference" f x (- h)
     = estimate "Forward Difference" f x h
  /\ estimate "Central Difference" f x (- h)
     = estimate "Central Difference" f x h.
Proof.
  cbn. unfold Rminus, Rdiv.
  rewrite ?Ropp_involutive, ?Rinv_mult, ?Rinv_opp.
  repeat split; f_equal; ring.
Qed.

(** A run of X16 with step 1. *)
Lemma quadratic_truncation_errors_witness :
  1 <> 0
  /\ estimate "Forward Difference" (fun t => 3 * t * t + 2 * t + 1) 5 1
     = Some (2 * 3 * 5 + 2 + 3 * 1)
  /\ estimate "Backward Difference" (fun t => 3 * t * t + 2 * t + 1) 5 1
     = Some (2 * 3 * 5 + 2 - 3 * 1)
  /\ estimate "Central Difference" (fun t => 3 * t * t + 2 * t + 1) 5 1
     = Some (2 * 3 * 5 + 2).
Proof.
  split; [exact R1_neq_R0|].
  exact (@quadratic_truncation_errors 3 2 1 5 1 R1_neq_R0).
Defined.

(** A run of X17 with step 1. *)
Lemma cubic_central_error_witness :
  1 <> 0
  /\ estimate "Central Difference"
              (fun t => 2 * t * t * t + 3 * t * t + 5 * t + 7) 1 1
     = Some (3 * 2 * 1 * 1 + 2 * 3 * 1 + 5 + 2 * 1 * 1).
Proof.
  split; [exact R1_neq_R0|].
  exact (@cubic_central_error 2 3 5 7 1 1 R1_neq_R0).
Defined.

End ExactEstimators.

(** ** The further properties at concrete inputs *)

Section MoreInstances.
Import Sample.
#[local] Open Scope float_scope.

(** A run of X4 on [x*x] at 0. *)
Lemma reported_errors_never_negative_witness :
  compileExpression "x*x" = Normal (Mul VarX VarX)
  /\ exists rs,
       calculateDerivatives flat
       = (Normal tt, [SetFunctionError EmptyString; SetResults rs])
       /\ Forall
            (fun r =>
               match absoluteError r with
               | Some e => (e <? 0) = false
               | None => True
               end
               /\ match relativeError r with
                  | Some e => (e <? 0) = false
                  | None => True
                  end)
            rs.
Proof.
  split; [reflexivity|].
  exact (reported_errors_never_negative flat (compiled := Mul VarX VarX)
           eq_refl).
Defined.

(** A run of X5 on [x/x] at 0, where the analytical value is NaN. *)
Lemma rows_are_consistent_witness :
  compileExpression "x/x" = Normal (Div VarX VarX)
  /\ exists rs,
       calculateDerivatives singular
       = (Normal tt, [SetFunctionError EmptyString; SetResults rs])
       /\ Forall
            (fun r =>
               (exists m,
                   findMethod (num := number) (method r) = Some m
                   /\ name m = method r
                   /\ numerical r
                      = calculate m (compiledFunction (Div VarX VarX))
                                  (evaluationPoint singular)
                                  (stepSize singular)
                   /\ resultFormula r = formula m
                   /\ resultOrder r = order m
                   /\ resultColor r = color m)
               /\ match analytical r with
                  | None => absoluteError r = None /\ relativeError r = None
                  | Some a =>
                      absoluteError r = Some (Math_abs (numerical r - a))
                      /\ (relativeError r = None <-> strictEq a 0 = true)
                  end)
            rs.
Proof.
  split; [reflexivity|].
  exact (rows_are_consistent singular (compiled := Div VarX VarX) eq_refl).
Defined.

(** A run of X8: three names selected, one of them unknown. *)
Lemma at_most_three_rows_witness :
  compileExpression "x*x" = Normal (Mul VarX VarX)
  /\ NoDup (selectedMethods flat)
  /\ (List.length (results (run (calculateDerivatives flat) flat)) <= 3)%nat.
Proof.
  assert (Hnodup : NoDup (selectedMethods flat)).
  { repeat constructor; cbn; intuition discriminate. }
  split; [reflexivity | split; [exact Hnodup|]].
  exact (at_most_three_rows flat (compiled := Mul VarX VarX) eq_refl Hnodup).
Defined.

(** A run of X9: the sweep for [x*x] at 0. *)
Lemma sweep_errors_never_negative_witness :
  compileExpression "x*x" = Normal (Mul VarX VarX)
  /\ compileDerivative "x*x"
     = Normal (Add (Mul (Const 1) VarX) (Mul VarX (Const 1)))
  /\ exists ts,
       generateErrorData pow flat = (Normal tt, [SetErrorData ts])
       /\ Forall (fun t => Forall (fun e => (e <? 0) = false) (trace_y t)) ts.
Proof.
  split; [reflexivity | split; [reflexivity|]].
  exact (sweep_errors_never_negative pow flat
           (compiled := Mul VarX VarX)
           (compiledD := Add (Mul (Const 1) VarX) (Mul VarX (Const 1)))
           eq_refl eq_refl).
Defined.

(** A run of X11: Backward Difference is checked and unchecked again. *)
Lemma toggle_round_trip_witness :
  includes ["Central Difference"; "Forward Difference"] "Backward Difference"
  = false
  /\ handleMethodToggle "Backward Difference" false
       (handleMethodToggle "Backward Difference" true
          ["Central Difference"; "Forward Difference"])
     = ["Central Difference"; "Forward Difference"].
Proof.
  split; [reflexivity|].
  exact (@toggle_round_trip "Backward Difference"
           ["Central Difference"; "Forward Difference"] eq_refl).
Defined.

(** A run of X12: Forward Difference is checked on top of Central. *)
Lemma toggle_keeps_selection_duplicate_free_witness :
  NoDup ["Central Difference"]
  /\ includes ["Central Difference"] "Forward Difference" = negb true
  /\ NoDup (handleMethodToggle "Forward Difference" true
              ["Central Difference"]).
Proof.
  assert (Hnodup : NoDup ["Central Difference"])
    by (repeat constructor; intros []).
  split; [exact Hnodup | split; [reflexivity|]].
  exact (@toggle_keeps_selection_duplicate_free "Forward Difference" true
           ["Central Difference"] Hnodup eq_refl).
Defined.

(** A run of X13 on the state whose input was edited into [x^^2]. *)
Lemma plot_skipped_on_parse_error_witness :
  compileExpression (functionInput stale) = Throw "SyntaxError"
  /\ generatePlotData (Checked true) stale
     = (Normal tt, [Engine (SetFunctionError "Invalid function syntax")]).
Proof.
  split; [reflexivity|].
  exact (plot_skipped_on_parse_error (Checked true) stale
           (e := "SyntaxError") eq_refl).
Defined.

(** A run of X14 on the state a first run on the default inputs leaves:
    the curve, the point, one tangent and one sampling trace. *)
Lemma plot_layout_witness :
  compileExpression "x^2 + 2*x + 1"
  = Normal (Add (Add (Mul VarX VarX) (Mul (Const 2) VarX)) (Const 1))
  /\ exists traces,
       generatePlotData Indeterminate
         (run (calculateDerivatives initial) initial)
       = (Normal tt, [SetPlotData traces])
       /\ List.length traces = 4%nat.
Proof.
  split; [reflexivity|].
  assert (Hcompiled :
    compileExpression
      (functionInput (run (calculateDerivatives initial) initial))
    = Normal (Add (Add (Mul VarX VarX) (Mul (Const 2) VarX)) (Const 1)))
    by (vm_compute; reflexivity).
  destruct (plot_layout Indeterminate
              (run (calculateDerivatives initial) initial) Hcompiled)
    as (traces & Hcall & _ & Hlength & _).
  exists traces. split; [exact Hcall | exact Hlength].
Defined.

(** A run of X15: [t*t] and [|t|] agree at the sampling points -1 and 1
    of the Central Difference at 0 with step 1. *)
Lemma sampling_points_determine_estimate_witness :
  let central : DifferentiationMethod number :=
    {| name := "Central Difference";
       formula := "(f(x+h) - f(x-h)) / (2h)";
       order := "O(h²)";
       color := "#10b981";
       calculate := fun f x h => (f (x + h) - f (x - h)) / (2 * h) |} in
  findMethod "Central Difference" = Some central
  /\ Forall (fun p => p * p = abs p)
            (samplingPointsOf "Central Difference" 0 1)
  /\ List.length (samplingPointsOf "Central Difference" 0 1) = 2%nat
  /\ calculate central (fun t => t * t) 0 1
     = calculate central (fun t => abs t) 0 1.
Proof.
  intros central.
  assert (Hagree : Forall (fun p => p * p = abs p)
                          (samplingPointsOf "Central Difference" 0 1))
    by (repeat constructor).
  split; [reflexivity | split; [exact Hagree|]].
  exact (@sampling_points_determine_estimate "Central Difference" central
           (fun t => t * t) (fun t => abs t) 0 1 eq_refl Hagree).
Defined.

End MoreInstances.
